(** * Multi-document QA comparison: model configuration, query dispatch,
      balance check and document loading.

    A shallow embedding of [model_config.py], [query_handler.py] and
    [document_loader.py].  Python values are an inductive type, Python
    exceptions are the [Raise] branch of an outcome type, Python floats are
    IEEE-754 binary64 numbers in the executable specification of the Standard
    Library ([spec_float] with precision 53 and maximal exponent 1024), and the
    external collaborators (environment, provider clients, clock, HTTP client,
    PDF loader, tokenizer) are section variables. *)

From Stdlib Require Import ZArith List Bool Lia.
From Stdlib Require Import Ascii String.
From Stdlib Require Import SpecFloat PrimFloat FloatOps.
From Stdlib Require Import Sorting.Sorted Sorting.Permutation Sorting.Mergesort.
From Stdlib Require Import Orders.
Import ListNotations.

Set Warnings "-inexact-float,-register-all".

Local Open Scope Z_scope.
Local Open Scope string_scope.

(* ================================================================== *)
(** * Exceptions and outcomes *)
(* ================================================================== *)

(** The exception classes the code can meet.  [ProviderError] stands for any
    subclass of [Exception] raised by a third-party client (transport,
    authentication, billing, malformed body); [KeyboardInterrupt] and
    [SystemExit] derive from [BaseException] only, so [except Exception] does
    not catch them. *)
Inductive exn_class :=
| ValueError | KeyError | TypeError | AttributeError
| OverflowError | ProviderError
| KeyboardInterrupt | SystemExit.

(** [exn_str] is [str(e)]. *)
Record exn := mk_exn { exn_cls : exn_class; exn_str : string }.

(** [isinstance(e, Exception)]. *)
Definition is_Exception (e : exn) : bool :=
  match exn_cls e with
  | KeyboardInterrupt | SystemExit => false
  | _ => true
  end.

Inductive outcome (A : Type) :=
| Ok (a : A)
| Raise (e : exn).
Arguments Ok {A} a.
Arguments Raise {A} e.

Definition bind {A B} (x : outcome A) (f : A -> outcome B) : outcome B :=
  match x with
  | Ok a => f a
  | Raise e => Raise e
  end.

Notation "x <- c1 ;; c2" := (bind c1 (fun x => c2))
  (at level 61, c1 at next level, right associativity).

(* ================================================================== *)
(** * Strings *)
(* ================================================================== *)

Definition nl : string := String (ascii_of_nat 10) "".

(** [needle in haystack] on Python strings. *)
Fixpoint contains (needle haystack : string) : bool :=
  String.prefix needle haystack
  || match haystack with
     | EmptyString => false
     | String _ rest => contains needle rest
     end.

Fixpoint rev_string_acc (s acc : string) : string :=
  match s with
  | EmptyString => acc
  | String c r => rev_string_acc r (String c acc)
  end.

(** [s.endswith(suffix)]. *)
Definition ends_with (suffix s : string) : bool :=
  String.prefix (rev_string_acc suffix "") (rev_string_acc s "").

(* ================================================================== *)
(** * Python floats: IEEE-754 binary64 *)
(* ================================================================== *)

Module PyFloat.

Definition t := spec_float.

Definition add : t -> t -> t := SFadd prec emax.
Definition sub : t -> t -> t := SFsub prec emax.
Definition mul : t -> t -> t := SFmul prec emax.
Definition div : t -> t -> t := SFdiv prec emax.
Definition leb : t -> t -> bool := SFleb.

Definition zero : t := S754_zero false.

(** A float literal of the source, rounded to the nearest binary64 as
    Python's parser does. *)
Definition lit (f : float) : t := Prim2SF f.

(** A Python [int] as an exact, unnormalised binary number. *)
Definition exact (i : Z) : t :=
  match i with
  | Z0 => S754_zero false
  | Zpos p => S754_finite false p 0
  | Zneg p => S754_finite true p 0
  end.

Definition is_inf (x : t) : bool :=
  match x with S754_infinity _ => true | _ => false end.

(** [0.0 <= x], false on NaN. *)
Definition nonneg (x : t) : bool := leb zero x.

End PyFloat.

(* ================================================================== *)
(** * Python values *)
(* ================================================================== *)

(** The values that flow through the code: [None], [int], [float], [str] and
    [dict] with string keys, as the list of its bindings in insertion order
    (a key is bound once; lookup takes the first binding).  Booleans, lists
    and tuples do not occur in what the code reads. *)
Inductive pyval :=
| PNone
| PInt (i : Z)
| PFloat (f : PyFloat.t)
| PStr (s : string)
| PDict (d : list (string * pyval)).

Definition type_name (v : pyval) : string :=
  match v with
  | PNone => "NoneType"
  | PInt _ => "int"
  | PFloat _ => "float"
  | PStr _ => "str"
  | PDict _ => "dict"
  end.

Fixpoint lookup {A} (k : string) (d : list (string * A)) : option A :=
  match d with
  | [] => None
  | (k', v) :: rest => if String.eqb k k' then Some v else lookup k rest
  end.

(** [a / b] on two Python ints with [b <> 0]: the correctly rounded quotient,
    [OverflowError] when it exceeds the float range. *)
Definition int_truediv (a b : Z) : outcome PyFloat.t :=
  let q := PyFloat.div (PyFloat.exact a) (PyFloat.exact b) in
  if PyFloat.is_inf q
  then Raise (mk_exn OverflowError "integer division result too large for a float")
  else Ok q.

(** [float(i)]: round to nearest, [OverflowError] above the float range. *)
Definition int_to_float (i : Z) : outcome PyFloat.t :=
  let f := binary_normalize prec emax i 0 false in
  if PyFloat.is_inf f
  then Raise (mk_exn OverflowError "int too large to convert to float")
  else Ok f.

Definition million : Z := 1000000.

(** [v / 1_000_000]. *)
Definition div_million (v : pyval) : outcome PyFloat.t :=
  match v with
  | PInt i => int_truediv i million
  | PFloat f => Ok (PyFloat.div f (PyFloat.exact million))
  | _ => Raise (mk_exn TypeError
           ("unsupported operand type(s) for /: '" ++ type_name v ++ "' and 'int'"))
  end.

(** [a + b]. *)
Definition py_add (a b : pyval) : outcome pyval :=
  match a, b with
  | PInt x, PInt y => Ok (PInt (x + y))
  | PFloat x, PFloat y => Ok (PFloat (PyFloat.add x y))
  | PInt x, PFloat y => fx <- int_to_float x ;; Ok (PFloat (PyFloat.add fx y))
  | PFloat x, PInt y => fy <- int_to_float y ;; Ok (PFloat (PyFloat.add x fy))
  | PStr x, PStr y => Ok (PStr (x ++ y))
  | _, _ => Raise (mk_exn TypeError
           ("unsupported operand type(s) for +: '" ++ type_name a ++ "' and '"
            ++ type_name b ++ "'"))
  end.

(** [key in v]. *)
Definition py_contains (key : string) (v : pyval) : outcome bool :=
  match v with
  | PDict d => Ok (match lookup key d with Some _ => true | None => false end)
  | PStr s => Ok (contains key s)
  | _ => Raise (mk_exn TypeError
           ("argument of type '" ++ type_name v ++ "' is not iterable"))
  end.

(** [v[key]]. *)
Definition py_getitem (v : pyval) (key : string) : outcome pyval :=
  match v with
  | PDict d =>
      match lookup key d with
      | Some x => Ok x
      | None => Raise (mk_exn KeyError ("'" ++ key ++ "'"))
      end
  | PStr _ => Raise (mk_exn TypeError "string indices must be integers, not 'str'")
  | _ => Raise (mk_exn TypeError
           ("'" ++ type_name v ++ "' object is not subscriptable"))
  end.

(** [v.get(key, default)]. *)
Definition py_get (v : pyval) (key : string) (default : pyval) : outcome pyval :=
  match v with
  | PDict d =>
      Ok (match lookup key d with Some x => x | None => default end)
  | _ => Raise (mk_exn AttributeError
           ("'" ++ type_name v ++ "' object has no attribute 'get'"))
  end.

(* ================================================================== *)
(** * model_config.py *)
(* ================================================================== *)

Module Pricing.
Record t := mk {
  input : PyFloat.t;
  output : PyFloat.t;
  name : string
}.
End Pricing.

(** Pricing per 1M tokens (input, output). *)
Definition MODEL_PRICING : list (string * Pricing.t) :=
  [ ("gpt-5",
      Pricing.mk (PyFloat.lit 2.50) (PyFloat.lit 10.00) "GPT-5");
    ("claude-sonnet-4-5-20250929",
      Pricing.mk (PyFloat.lit 3.00) (PyFloat.lit 15.00) "Claude Sonnet 4.5");
    ("deepseek-chat",
      Pricing.mk (PyFloat.lit 0.28) (PyFloat.lit 0.42) "DeepSeek v3.2-Exp");
    ("deepseek-chat-v3.1",
      Pricing.mk (PyFloat.lit 0.55) (PyFloat.lit 2.19) "DeepSeek v3.1-Terminus") ].

(** [MODEL_PRICING[model_name]]. *)
Definition pricing_of (model_name : string) : outcome Pricing.t :=
  match lookup model_name MODEL_PRICING with
  | Some p => Ok p
  | None => Raise (mk_exn KeyError ("'" ++ model_name ++ "'"))
  end.

Definition calculate_cost (model_name : string) (input_tokens output_tokens : pyval)
  : outcome PyFloat.t :=
  pricing <- pricing_of model_name ;;
  it <- div_million input_tokens ;;
  let input_cost := PyFloat.mul it (Pricing.input pricing) in
  ot <- div_million output_tokens ;;
  let output_cost := PyFloat.mul ot (Pricing.output pricing) in
  Ok (PyFloat.add input_cost output_cost).

(** The keyword arguments the code passes to the constructor of a client;
    [base_url] is [None] where the code passes none. *)
Module Kwargs.
Record t := mk {
  model : string;
  temperature : Z;
  api_key : option string;
  base_url : option string
}.
End Kwargs.

Module HttpRequest.
Record t := mk {
  url : string;
  headers : list (string * string);
  timeout : Z
}.
End HttpRequest.

(** What the code reads of a [requests] response; [json] is the result of the
    [response.json()] call, which raises on a malformed body. *)
Module HttpResponse.
Record t := mk {
  status_code : Z;
  json : outcome pyval
}.
End HttpResponse.

(** [try: body / except Exception: return None]. *)
Definition except_return_None (body : outcome pyval) : outcome pyval :=
  match body with
  | Ok v => Ok v
  | Raise e => if is_Exception e then Ok PNone else Raise e
  end.

Section ModelConfig.

(** The client objects of the two SDK wrappers. *)
Context {client : Type}.

(** [os.getenv]. *)
Variable getenv : string -> option string.

(** The constructors [ChatOpenAI(...)] and [ChatAnthropic(...)]: third-party
    code that returns a client or raises, for instance on a missing
    credential. *)
Variables ChatOpenAI ChatAnthropic : Kwargs.t -> outcome client.

(** [requests.get(url, headers=..., timeout=...)]. *)
Variable requests_get : HttpRequest.t -> outcome HttpResponse.t.

Definition get_model (model_name : string) : outcome client :=
  if model_name =? "gpt-5" then
    ChatOpenAI (Kwargs.mk "gpt-5" 0 (getenv "OPENAI_API_KEY") None)
  else if model_name =? "claude-sonnet-4-5-20250929" then
    ChatAnthropic (Kwargs.mk "claude-sonnet-4-5-20250929" 0
                     (getenv "ANTHROPIC_API_KEY") None)
  else if model_name =? "deepseek-chat" then
    ChatOpenAI (Kwargs.mk "deepseek-chat" 0 (getenv "DEEPSEEK_API_KEY")
                  (Some "https://api.deepseek.com"))
  else if model_name =? "deepseek-chat-v3.1" then
    ChatOpenAI (Kwargs.mk "deepseek-chat" 0 (getenv "DEEPSEEK_API_KEY")
                  (Some "https://api.deepseek.com/v3.1_terminus_expires_on_20251015"))
  else
    Raise (mk_exn ValueError ("Unknown model: " ++ model_name)).

(** The value returned (or the exception let through), paired with the HTTP
    requests issued on the way, in order. *)
Definition check_deepseek_balance : outcome pyval * list HttpRequest.t :=
  let api_key := getenv "DEEPSEEK_API_KEY" in
  match api_key with
  | None => (Ok PNone, [])
  | Some api_key =>
      if api_key =? "" then (Ok PNone, [])
      else
        let headers := [("Authorization", "Bearer " ++ api_key)] in
        let request :=
          HttpRequest.mk "https://api.deepseek.com/user/balance" headers 10 in
        (except_return_None
           (response <- requests_get request ;;
            if Z.eqb (HttpResponse.status_code response) 200
            then HttpResponse.json response
            else Ok PNone),
         [request])
  end.

End ModelConfig.

(* ================================================================== *)
(** * query_handler.py *)
(* ================================================================== *)

Inductive Message :=
| SystemMessage (content : string)
| HumanMessage (content : string).

(** The attributes the code reads of a provider response; [None] is an
    attribute the object does not have. *)
Module Response.
Record t := mk {
  response_metadata : option pyval;
  usage_metadata : option pyval;
  content : option pyval
}.
End Response.

Module QueryResult.
Record t := mk {
  model : string;
  response : pyval;
  input_tokens : pyval;
  output_tokens : pyval;
  total_tokens : pyval;
  cost : pyval;
  time : PyFloat.t;
  error : option string
}.
End QueryResult.

(** [obj.attr] on an attribute that may be missing.  The message of the
    [AttributeError] starts with the class name of the object, which the code
    does not fix; it is left out. *)
Definition getattr (attr : string) (a : option pyval) : outcome pyval :=
  match a with
  | Some v => Ok v
  | None => Raise (mk_exn AttributeError
              ("object has no attribute '" ++ attr ++ "'"))
  end.

Definition system_prompt (context : string) : string :=
  "Use the given context to answer the question." ++ nl ++
  "If you don't know the answer, say you don't know. Keep the answer concise."
  ++ nl ++ nl ++ "Context:" ++ nl ++ context.

(** Extract token usage: the [if]/[elif]/[else] on the response shape. *)
Definition extract_usage (response : Response.t) : outcome (pyval * pyval) :=
  has_token_usage <-
    match Response.response_metadata response with
    | None => Ok false
    | Some md => py_contains "token_usage" md
    end ;;
  if (has_token_usage : bool) then
    md <- getattr "response_metadata" (Response.response_metadata response) ;;
    token_usage <- py_getitem md "token_usage" ;;
    input_tokens <- py_get token_usage "prompt_tokens" (PInt 0) ;;
    output_tokens <- py_get token_usage "completion_tokens" (PInt 0) ;;
    Ok (input_tokens, output_tokens)
  else
    match Response.usage_metadata response with
    | Some um =>
        input_tokens <- py_get um "input_tokens" (PInt 0) ;;
        output_tokens <- py_get um "output_tokens" (PInt 0) ;;
        Ok (input_tokens, output_tokens)
    | None => Ok (PInt 0, PInt 0)
    end.

(** The body of the [try] after the provider has answered. *)
Definition query_success (model_name : string) (response : Response.t)
    (elapsed_time : PyFloat.t) : outcome QueryResult.t :=
  usage <- extract_usage response ;;
  let input_tokens := fst usage in
  let output_tokens := snd usage in
  cost <- calculate_cost model_name input_tokens output_tokens ;;
  pricing <- pricing_of model_name ;;
  content <- getattr "content" (Response.content response) ;;
  total <- py_add input_tokens output_tokens ;;
  Ok (QueryResult.mk (Pricing.name pricing) content input_tokens output_tokens
        total (PFloat cost) elapsed_time None).

Definition balance_message : string :=
  "Insufficient Balance - Please add credits to your DeepSeek account at https://platform.deepseek.com".

Definition api_key_message : string :=
  "Invalid API key - Please check your API key in .env file".

(** Create more helpful error messages. *)
Definition classify_error (error_msg : string) : string :=
  if contains "402" error_msg || contains "Insufficient Balance" error_msg then
    balance_message
  else if contains "401" error_msg || contains "Unauthorized" error_msg then
    api_key_message
  else error_msg.

(** The [except Exception as e] handler. *)
Definition query_failure (model_name : string) (e : exn)
    (elapsed_time : PyFloat.t) : outcome QueryResult.t :=
  let error_msg := classify_error (exn_str e) in
  pricing <- pricing_of model_name ;;
  Ok (QueryResult.mk (Pricing.name pricing) (PStr ("Error: " ++ error_msg))
        (PInt 0) (PInt 0) (PInt 0) (PInt 0) elapsed_time (Some error_msg)).

Section QueryHandler.

Variable getenv : string -> option string.

(** [model.invoke(messages)] on the client built by [get_model]. *)
Context {client : Type}.
Variables ChatOpenAI ChatAnthropic : Kwargs.t -> outcome client.
Variable invoke : client -> list Message -> outcome Response.t.

(** [time_time n] is what the [n]-th call of [time.time()] made by one
    [query_model] call returns, counting from 0. *)
Variable time_time : nat -> PyFloat.t.

Definition query_model (model_name context question : string)
  : outcome QueryResult.t :=
  model <- get_model getenv ChatOpenAI ChatAnthropic model_name ;;
  let messages := [SystemMessage (system_prompt context); HumanMessage question] in
  let start_time := time_time 0%nat in
  match invoke model messages with
  | Ok response =>
      let elapsed_time := PyFloat.sub (time_time 1%nat) start_time in
      match query_success model_name response elapsed_time with
      | Ok result => Ok result
      | Raise e =>
          if is_Exception e
          then query_failure model_name e (PyFloat.sub (time_time 2%nat) start_time)
          else Raise e
      end
  | Raise e =>
      if is_Exception e
      then query_failure model_name e (PyFloat.sub (time_time 1%nat) start_time)
      else Raise e
  end.

End QueryHandler.

(* ================================================================== *)
(** * document_loader.py *)
(* ================================================================== *)

(** Python's order on [str]: code points, which on UTF-8 text is the order of
    the bytes. *)
Module StringOrder <: TotalLeBool.
Definition t := string.
Definition leb (x y : t) : bool := String.leb x y.
Lemma leb_total (x y : t) : leb x y = true \/ leb y x = true.
Proof. apply String.leb_total. Qed.
End StringOrder.

Module StringSort := Sort StringOrder.

(** [sorted] on paths of one directory, which compare by their file names. *)
Definition sorted (l : list string) : list string := StringSort.sort l.

Definition document_header (filename : string) : string :=
  "=== Document: " ++ filename ++ " ===".

Section DocumentLoader.

(** The names of the entries of a directory, in the order the file system
    yields them. *)
Variable listdir : string -> list string.

(** [PyPDFLoader(path).load()], as the [page_content] of each page. *)
Variable PyPDFLoader_load : string -> outcome (list string).

(** [tiktoken.encoding_for_model(model)], whose result has an [encode]
    method. *)
Variable encoding_for_model : string -> outcome (string -> outcome (list nat)).

(** [Path(documents_dir).glob("*.pdf")], as file names. *)
Definition glob_pdf (documents_dir : string) : list string :=
  filter (ends_with ".pdf") (listdir documents_dir).

(** [str(docs_path / name)]. *)
Definition path_str (documents_dir filename : string) : string :=
  documents_dir ++ "/" ++ filename.

(** The [for pdf_file in sorted(pdf_files)] loop on its two accumulators. *)
Fixpoint load_loop (documents_dir : string) (files : list string)
    (all_text : string) (document_names : list string)
  : outcome (string * list string) :=
  match files with
  | [] => Ok (all_text, document_names)
  | pdf_file :: rest =>
      pages <- PyPDFLoader_load (path_str documents_dir pdf_file) ;;
      let doc_text := String.concat (nl ++ nl) pages in
      load_loop documents_dir rest
        (all_text ++ nl ++ nl ++ document_header pdf_file ++ nl ++ nl ++ doc_text)
        (document_names ++ [pdf_file])
  end.

Definition load_documents (documents_dir : string)
  : outcome (string * Z * list string) :=
  let pdf_files := glob_pdf documents_dir in
  loaded <- load_loop documents_dir (sorted pdf_files) "" [] ;;
  let all_text := fst loaded in
  let document_names := snd loaded in
  encoding <- encoding_for_model "gpt-4" ;;
  tokens <- encoding all_text ;;
  let token_count := Z.of_nat (List.length tokens) in
  Ok (all_text, token_count, document_names).

Definition count_tokens (text model : string) : outcome Z :=
  encoding <- encoding_for_model model ;;
  tokens <- encoding text ;;
  Ok (Z.of_nat (List.length tokens)).

End DocumentLoader.

(* ================================================================== *)
(** * app.py *)
(* ================================================================== *)

(** [bool(v)]: the truth value the [if] statements of the page take of a
    value.  Both float zeros are false, NaN is true. *)
Definition py_truthy (v : pyval) : bool :=
  match v with
  | PNone => false
  | PInt i => negb (Z.eqb i 0)
  | PFloat (S754_zero _) => false
  | PFloat _ => true
  | PStr s => negb (s =? "")
  | PDict [] => false
  | PDict (_ :: _) => true
  end.

(** An [int] against a [float], compared exactly as Python does, [None] on
    NaN. *)
Definition compare_int_float (i : Z) (f : PyFloat.t) : option comparison :=
  match f with
  | S754_nan => None
  | S754_infinity s => Some (if s then Gt else Lt)
  | S754_zero _ => Some (Z.compare i 0)
  | S754_finite s m e =>
      let v := if s then Z.neg m else Z.pos m in
      Some (if Z.leb 0 e
            then Z.compare i (v * 2 ^ e)
            else Z.compare (i * 2 ^ (- e)) v)
  end.

(** [a < b]. *)
Definition py_lt (a b : pyval) : outcome bool :=
  match a, b with
  | PInt x, PInt y => Ok (Z.ltb x y)
  | PFloat x, PFloat y => Ok (SFltb x y)
  | PInt x, PFloat y =>
      Ok (match compare_int_float x y with Some Lt => true | _ => false end)
  | PFloat x, PInt y =>
      Ok (match compare_int_float y x with Some Gt => true | _ => false end)
  | PStr x, PStr y => Ok (String.ltb x y)
  | _, _ => Raise (mk_exn TypeError
           ("'<' not supported between instances of '" ++ type_name a
            ++ "' and '" ++ type_name b ++ "'"))
  end.

(** The scan of [min(iterable, key=...)] once a first item is held: a later
    item replaces the held one when its key is strictly smaller. *)
Fixpoint min_scan {A} (key : A -> pyval) (best : A) (items : list A)
  : outcome A :=
  match items with
  | [] => Ok best
  | item :: rest =>
      smaller <- py_lt (key item) (key best) ;;
      min_scan key (if (smaller : bool) then item else best) rest
  end.

(** [min(items, key=key)]; the message on no item is the one of Python up to
    3.11. *)
Definition py_min {A} (key : A -> pyval) (items : list A) : outcome A :=
  match items with
  | [] => Raise (mk_exn ValueError "min() arg is an empty sequence")
  | first :: rest => min_scan key first rest
  end.

(** The branch the sidebar takes on the value of the balance check: the
    balance details, or the warning "Could not check balance". *)
Inductive BalanceNotice :=
| BalanceDetails (balance_info : pyval)
| CouldNotCheckBalance.

(** What the "Query Models" button leaves behind: one of the two error
    notices, or the results and the question stored in the session. *)
Inductive QueryButton :=
| PleaseEnterQuestion
| PleaseSelectModel
| Stored (results : list QueryResult.t) (question : string).

(** The widget a result's expander holds. *)
Inductive Widget :=
| st_error (body : string)
| st_write (body : pyval).

(** The checkboxes, appended in the order of the page. *)
Definition select_models
    (use_gpt5 use_claude use_deepseek_v32 use_deepseek_v31 : bool)
  : list string :=
  let selected_models : list string := [] in
  let selected_models :=
    if use_gpt5 then (selected_models ++ ["gpt-5"])%list else selected_models in
  let selected_models :=
    if use_claude then (selected_models ++ ["claude-sonnet-4-5-20250929"])%list
    else selected_models in
  let selected_models :=
    if use_deepseek_v32 then (selected_models ++ ["deepseek-chat"])%list
    else selected_models in
  let selected_models :=
    if use_deepseek_v31 then (selected_models ++ ["deepseek-chat-v3.1"])%list
    else selected_models in
  selected_models.

(** [if result['error']: st.error(...) else: st.write(result['response'])]. *)
Definition show_response (result : QueryResult.t) : Widget :=
  match QueryResult.error result with
  | Some error =>
      if py_truthy (PStr error)
      then st_error ("Error: " ++ error)
      else st_write (QueryResult.response result)
  | None => st_write (QueryResult.response result)
  end.

(** Key findings: with more than one result, the results of least cost and of
    least time. *)
Definition key_findings (results : list QueryResult.t)
  : outcome (option (QueryResult.t * QueryResult.t)) :=
  if Nat.ltb 1 (List.length results) then
    cheapest <- py_min QueryResult.cost results ;;
    fastest <- py_min (fun x => PFloat (QueryResult.time x)) results ;;
    Ok (Some (cheapest, fastest))
  else Ok None.

Section App.

Variable getenv : string -> option string.
Variable requests_get : HttpRequest.t -> outcome HttpResponse.t.
Context {client : Type}.
Variables ChatOpenAI ChatAnthropic : Kwargs.t -> outcome client.
Variable invoke : client -> list Message -> outcome Response.t.

(** [clock k n] is the [n]-th reading of [time.time()] made by the [k]-th
    [query_model] call of one click, both counted from 0. *)
Variable clock : nat -> nat -> PyFloat.t.

(** The "Check DeepSeek Balance" button, up to the test of [balance_info]. *)
Definition balance_button : outcome BalanceNotice :=
  balance_info <- fst (check_deepseek_balance getenv requests_get) ;;
  Ok (if py_truthy balance_info
      then BalanceDetails balance_info
      else CouldNotCheckBalance).

(** Query each model: the [for] loop on its accumulator, [call] counting the
    calls made so far. *)
Fixpoint query_each (call : nat) (selected_models : list string)
    (context question : string) (results : list QueryResult.t)
  : outcome (list QueryResult.t) :=
  match selected_models with
  | [] => Ok results
  | model_name :: rest =>
      result <- query_model getenv ChatOpenAI ChatAnthropic invoke (clock call) model_name context
                  question ;;
      query_each (S call) rest context question (results ++ [result])%list
  end.

(** The "Query Models" button. *)
Definition query_button
    (use_gpt5 use_claude use_deepseek_v32 use_deepseek_v31 : bool)
    (context question : string) : outcome QueryButton :=
  if negb (py_truthy (PStr question)) then Ok PleaseEnterQuestion
  else
    let selected_models :=
      select_models use_gpt5 use_claude use_deepseek_v32 use_deepseek_v31 in
    match selected_models with
    | [] => Ok PleaseSelectModel
    | _ :: _ =>
        results <- query_each 0 selected_models context question [] ;;
        Ok (Stored results question)
    end.

End App.

(* ================================================================== *)
(** * Vocabulary of the properties *)
(* ================================================================== *)

Module FloatSign.

(** [x] is not NaN and carries sign [s]. *)
Definition signed (s : bool) (x : spec_float) : Prop :=
  match x with
  | S754_zero s' | S754_infinity s' | S754_finite s' _ _ => s' = s
  | S754_nan => False
  end.

(** Zero of either sign, a positive finite number or plus infinity: the floats
    [x] with [0.0 <= x]. *)
Definition nn (x : spec_float) : bool :=
  match x with
  | S754_zero _ | S754_finite false _ _ | S754_infinity false => true
  | _ => false
  end.

Definition pos_finite (x : spec_float) : bool :=
  match x with
  | S754_finite false _ _ => true
  | _ => false
  end.

End FloatSign.

(** The enumerated set of model identifiers. *)
Definition known_models : list string :=
  ["gpt-5"; "claude-sonnet-4-5-20250929"; "deepseek-chat"; "deepseek-chat-v3.1"].

(** A client known by the constructor call that built it: the class and the
    keyword arguments. *)
Inductive BuiltClient :=
| OpenAIClient (kwargs : Kwargs.t)
| AnthropicClient (kwargs : Kwargs.t).

(** The constructor call [get_model] makes for an identifier: [get_model] on
    constructors that only record their call. *)
Definition constructor_call (getenv : string -> option string) (m : string)
  : outcome BuiltClient :=
  get_model getenv (fun kwargs => Ok (OpenAIClient kwargs))
    (fun kwargs => Ok (AnthropicClient kwargs)) m.

(** The provider behind each identifier of the enumerated set. *)
Definition provider_of (m : string) : string :=
  if m =? "gpt-5" then "OpenAI"
  else if m =? "claude-sonnet-4-5-20250929" then "Anthropic"
  else "DeepSeek".

(** [v == 0] in Python: the integer 0 and both float zeros. *)
Definition py_is_zero (v : pyval) : bool :=
  match v with
  | PInt i => Z.eqb i 0
  | PFloat (S754_zero _) => true
  | _ => false
  end.

(** The request [check_deepseek_balance] issues for a credential. *)
Definition balance_request (api_key : string) : HttpRequest.t :=
  HttpRequest.mk "https://api.deepseek.com/user/balance"
    [("Authorization", "Bearer " ++ api_key)] 10.

(** The cost formula as the design states it, on a pricing entry:
    (input tokens / 1,000,000) x input price + (output tokens / 1,000,000)
    x output price, in float arithmetic and without any rounding step of its
    own. *)
Definition cost_formula (p : Pricing.t) (i o : Z) : outcome PyFloat.t :=
  qi <- int_truediv i 1000000 ;;
  qo <- int_truediv o 1000000 ;;
  Ok (PyFloat.add (PyFloat.mul qi (Pricing.input p))
                  (PyFloat.mul qo (Pricing.output p))).

(** Every exception an outcome can raise is an instance of [Exception]. *)
Definition catchable {A} (x : outcome A) : Prop :=
  match x with
  | Ok _ => True
  | Raise e => is_Exception e = true
  end.

(** The record the [except] handler builds. *)
Definition error_result (display_name error_msg : string) (elapsed : PyFloat.t)
  : QueryResult.t :=
  QueryResult.mk display_name (PStr ("Error: " ++ error_msg))
    (PInt 0) (PInt 0) (PInt 0) (PInt 0) elapsed (Some error_msg).

(** The messages sent to the provider. *)
Definition messages_of (context question : string) : list Message :=
  [SystemMessage (system_prompt context); HumanMessage question].

(** Elapsed time after [n] further clock readings. *)
Definition elapsed (time_time : nat -> PyFloat.t) (n : nat) : PyFloat.t :=
  PyFloat.sub (time_time n) (time_time 0%nat).

(** [e] is raised inside the [try] of [query_model m context question] and is
    an instance of [Exception]. *)
Definition caught (getenv : string -> option string)
    {client : Type} (ChatOpenAI ChatAnthropic : Kwargs.t -> outcome client)
    (invoke : client -> list Message -> outcome Response.t)
    (time_time : nat -> PyFloat.t)
    (m context question : string) (e : exn) : Prop :=
  exists c, get_model getenv ChatOpenAI ChatAnthropic m = Ok c
    /\ ((invoke c (messages_of context question) = Raise e
         /\ is_Exception e = true)
        \/ exists response,
             invoke c (messages_of context question) = Ok response
             /\ query_success m response (elapsed time_time 1) = Raise e).

(** [d.get(k, default)] on the bindings of a dict. *)
Definition dict_get (d : list (string * pyval)) (k : string) (default : pyval)
  : pyval :=
  match lookup k d with
  | Some x => x
  | None => default
  end.

(** The response does not carry shape (a): it has no [response_metadata]
    attribute, or that is a dict without the key 'token_usage'. *)
Definition no_token_usage (response : Response.t) : bool :=
  match Response.response_metadata response with
  | None => true
  | Some (PDict md) =>
      match lookup "token_usage" md with Some _ => false | None => true end
  | Some _ => false
  end.

(** [0 <= v] on a number. *)
Definition py_nonneg (v : pyval) : bool :=
  match v with
  | PInt i => Z.leb 0 i
  | PFloat f => PyFloat.nonneg f
  | _ => false
  end.

(** File names in Python's order on [str]. *)
Definition filename_le (a b : string) : Prop := String.leb a b = true.

(** What one document contributes to the context: the header line between
    blank lines, then the pages joined by blank lines. *)
Definition document_block (pages_of : string -> list string)
    (filename : string) : string :=
  nl ++ nl ++ document_header filename ++ nl ++ nl
  ++ String.concat (nl ++ nl) (pages_of filename).

(** The blocks of the documents, concatenated in the order given. *)
Definition context_of (pages_of : string -> list string)
    (filenames : list string) : string :=
  fold_right (fun f acc => document_block pages_of f ++ acc) "" filenames.

(** [v] is an [int] or a [float]. *)
Definition is_number (v : pyval) : bool :=
  match v with
  | PInt _ | PFloat _ => true
  | _ => false
  end.

(** The display name the pricing table gives an identifier. *)
Definition display_name (m : string) : string :=
  match lookup m MODEL_PRICING with
  | Some p => Pricing.name p
  | None => ""
  end.


(** The cost of a result is a float above zero. *)
Definition cost_positive (r : QueryResult.t) : bool :=
  match QueryResult.cost r with
  | PFloat f => SFltb PyFloat.zero f
  | _ => false
  end.

(** The key of the "Fastest Response" finding. *)
Definition time_key (r : QueryResult.t) : pyval := PFloat (QueryResult.time r).

(** The pages the loader finds in a file of the directory, none when the
    loader raises. *)
Definition loaded_pages (PyPDFLoader_load : string -> outcome (list string))
    (documents_dir filename : string) : list string :=
  match PyPDFLoader_load (path_str documents_dir filename) with
  | Ok pages => pages
  | Raise _ => []
  end.

(* ================================================================== *)
(** * Sample collaborators and inputs *)
(* ================================================================== *)

(** An environment without any variable, and one with every key set. *)
Definition no_env : string -> option string := fun _ => None.

Definition keyed_env : string -> option string := fun _ => Some "sk-test".

(** An environment that sets the OpenAI key only. *)
Definition openai_env : string -> option string :=
  fun name => if name =? "OPENAI_API_KEY" then Some "sk-test" else None.

(** Constructors that refuse a missing key, as those of the SDK clients
    do. *)
Definition sdk_ChatOpenAI (kwargs : Kwargs.t) : outcome BuiltClient :=
  match Kwargs.api_key kwargs with
  | Some _ => Ok (OpenAIClient kwargs)
  | None => Raise (mk_exn ProviderError "The api_key client option must be set")
  end.

Definition sdk_ChatAnthropic (kwargs : Kwargs.t) : outcome BuiltClient :=
  match Kwargs.api_key kwargs with
  | Some _ => Ok (AnthropicClient kwargs)
  | None => Raise (mk_exn ProviderError "The api_key client option must be set")
  end.

(** A provider that answers every call with the same response. *)
Definition answering {client : Type} (response : Response.t)
  : client -> list Message -> outcome Response.t :=
  fun _ _ => Ok response.

(** A provider whose every call raises the same exception. *)
Definition failing {client : Type} (e : exn)
  : client -> list Message -> outcome Response.t :=
  fun _ _ => Raise e.

(** A clock that reads [n] seconds at its [n]-th reading. *)
Definition ticking (n : nat) : PyFloat.t :=
  binary_normalize prec emax (Z.of_nat n) 0 false.


Definition gpt5_client : BuiltClient :=
  OpenAIClient (Kwargs.mk "gpt-5" 0 (Some "sk-test") None).

(** A response of the flat shape (b) alone, and one carrying both shapes with
    a nested usage that lacks 'completion_tokens'. *)
Definition flat_usage : pyval :=
  PDict [("input_tokens", PInt 100); ("output_tokens", PInt 50)].

Definition flat_answer : Response.t :=
  Response.mk (Some (PDict [("model_name", PStr "gpt-5")])) (Some flat_usage)
    (Some (PStr "42")).

Definition both_answer : Response.t :=
  Response.mk
    (Some (PDict [("token_usage", PDict [("prompt_tokens", PInt 7)])]))
    (Some flat_usage) (Some (PStr "42")).

Definition flat_result : QueryResult.t :=
  QueryResult.mk "GPT-5" (PStr "42") (PInt 100) (PInt 50) (PInt 150)
    (PFloat (PyFloat.lit 0.00075)) (PyFloat.sub (ticking 1) (ticking 0)) None.

(** A balance endpoint that answers 200 with an available account. *)
Definition sample_balance_body : pyval :=
  PDict [("currency", PStr "USD"); ("total_balance", PStr "5.00")].

(** A directory with two PDFs and another file, a loader that finds two pages
    in every PDF, and a tokenizer with one token per byte. *)
Definition sample_listdir : string -> list string :=
  fun _ => ["b.pdf"; "notes.txt"; "a.pdf"].

Definition sample_pages : string -> list string :=
  fun _ => ["first page"; "second page"].

Definition sample_loader : string -> outcome (list string) :=
  fun path => Ok (sample_pages path).

Definition byte_encode : string -> outcome (list nat) :=
  fun text => Ok (map nat_of_ascii (list_ascii_of_string text)).

Definition sample_encoding : string -> outcome (string -> outcome (list nat)) :=
  fun _ => Ok byte_encode.

Definition sample_context : string :=
  nl ++ nl ++ "=== Document: a.pdf ===" ++ nl ++ nl
  ++ "first page" ++ nl ++ nl ++ "second page"
  ++ nl ++ nl ++ "=== Document: b.pdf ===" ++ nl ++ nl
  ++ "first page" ++ nl ++ nl ++ "second page".

(** A response whose [usage_metadata] is [None], and one whose input count is
    a string. *)
Definition unmetered_answer : Response.t :=
  Response.mk (Some (PDict [])) (Some PNone) (Some (PStr "42")).

Definition string_count_answer : Response.t :=
  Response.mk None
    (Some (PDict [("input_tokens", PStr "100"); ("output_tokens", PInt 50)]))
    (Some (PStr "42")).

(** A provider that answers the OpenAI client and fails every other one. *)
Definition openai_only : BuiltClient -> list Message -> outcome Response.t :=
  fun c _ =>
    match c with
    | OpenAIClient kwargs =>
        match Kwargs.base_url kwargs with
        | None => Ok flat_answer
        | Some _ => Raise (mk_exn ProviderError "Connection error.")
        end
    | AnthropicClient _ => Raise (mk_exn ProviderError "Connection error.")
    end.

Definition claude_failure : QueryResult.t :=
  error_result "Claude Sonnet 4.5" "Connection error." (elapsed ticking 1).

(** A loader that fails on one file; a tokenizer that refuses every text. *)
Definition b_is_corrupt : string -> outcome (list string) :=
  fun path =>
    if path =? "documents/b.pdf"
    then Raise (mk_exn ValueError "EOF marker not found")
    else Ok (sample_pages path).

Definition refusing_encoding : string -> outcome (string -> outcome (list nat)) :=
  fun _ => Raise (mk_exn KeyError "'gpt-4'").

Definition other_listdir : string -> list string :=
  fun _ => ["a.pdf"; "b.pdf"; "notes.txt"].

(* ================================================================== *)
(** * Facts on float arithmetic: signs *)
(* ================================================================== *)

Module FloatFacts.

Import FloatSign.

Lemma nonneg_nn (x : spec_float) : PyFloat.nonneg x = nn x.
Proof. destruct x as [[]|[]| |[] m e]; reflexivity. Qed.

Lemma signed_false_nn (x : spec_float) : signed false x -> nn x = true.
Proof. destruct x as [[]|[]| |[] m e]; simpl; intros H; congruence || tauto. Qed.

Section Rounding.

Variables prec emax : Z.

Lemma shr_1_nonneg (mrs : shr_record) :
  0 <= shr_m mrs -> 0 <= shr_m (shr_1 mrs).
Proof.
  destruct mrs as [m r s]. simpl.
  destruct m as [|[p|p|]|[p|p|]]; simpl; lia.
Qed.

Lemma iter_shr_1_nonneg (p : positive) (mrs : shr_record) :
  0 <= shr_m mrs -> 0 <= shr_m (iter_pos shr_1 p mrs).
Proof.
  revert mrs. induction p as [p IH|p IH|]; intros mrs H; simpl.
  - apply IH, IH, shr_1_nonneg, H.
  - apply IH, IH, H.
  - apply shr_1_nonneg, H.
Qed.

Lemma shr_record_of_loc_m (m : Z) (l : location) :
  shr_m (shr_record_of_loc m l) = m.
Proof. destruct l as [|[]]; reflexivity. Qed.

Lemma shr_fexp_nonneg (m e : Z) (l : location) :
  0 <= m -> 0 <= shr_m (fst (shr_fexp prec emax m e l)).
Proof.
  intros H. unfold shr_fexp, shr.
  destruct (fexp prec emax (Zdigits2 m + e) - e) as [|p|p]; simpl;
    try (rewrite shr_record_of_loc_m; exact H).
  apply iter_shr_1_nonneg. rewrite shr_record_of_loc_m. exact H.
Qed.

Lemma round_nearest_even_nonneg (m : Z) (l : location) :
  0 <= m -> 0 <= round_nearest_even m l.
Proof.
  intros H. destruct l as [|[]]; simpl; try lia.
  destruct (Z.even m); lia.
Qed.

Lemma binary_round_aux_signed (sx : bool) (mx ex : Z) (lx : location) :
  0 <= mx -> signed sx (binary_round_aux prec emax sx mx ex lx).
Proof.
  intros H. unfold binary_round_aux.
  pose proof (shr_fexp_nonneg mx ex lx H) as H1.
  destruct (shr_fexp prec emax mx ex lx) as [mrs' e']. simpl in H1.
  pose proof (round_nearest_even_nonneg _ (loc_of_shr_record mrs') H1) as H2.
  pose proof (shr_fexp_nonneg _ e' loc_Exact H2) as H3.
  destruct (shr_fexp prec emax
              (round_nearest_even (shr_m mrs') (loc_of_shr_record mrs'))
              e' loc_Exact) as [mrs'' e''].
  simpl in H3.
  destruct (shr_m mrs'') as [|m|m]; simpl; try reflexivity.
  - destruct (Z.leb e'' (emax - prec)); reflexivity.
  - lia.
Qed.

Lemma binary_round_signed (sx : bool) (mx : positive) (ex : Z) :
  signed sx (binary_round prec emax sx mx ex).
Proof.
  unfold binary_round.
  destruct (shl_align mx ex (fexp prec emax (Z.pos (digits2_pos mx) + ex)))
    as [mz ez].
  apply binary_round_aux_signed. lia.
Qed.

Lemma SFmul_nn (x y : spec_float) :
  nn x = true -> pos_finite y = true -> nn (SFmul prec emax x y) = true.
Proof.
  destruct x as [sx|[]| |[] mx ex]; destruct y as [sy|[]| |[] my ey];
    simpl; try congruence; intros _ _.
  apply signed_false_nn.
  apply (binary_round_aux_signed false). lia.
Qed.

Lemma SFdiv_core_binary_nonneg (m1 m2 : positive) (e1 e2 : Z) :
  0 <= fst (fst (SFdiv_core_binary prec emax (Z.pos m1) e1 (Z.pos m2) e2)).
Proof.
  unfold SFdiv_core_binary.
  set (s := e1 - e2 - _).
  set (m' := match s with Z0 => Z.pos m1 | Z.pos _ => Z.shiftl (Z.pos m1) s
                     | Z.neg _ => 0 end).
  assert (Hm : 0 <= m').
  { subst m'. destruct s; try lia. apply Z.shiftl_nonneg. lia. }
  pose proof (Z.div_pos m' (Z.pos m2) Hm ltac:(lia)) as Hq.
  unfold Z.div in Hq.
  destruct (Z.div_eucl m' (Z.pos m2)) as [q r]. exact Hq.
Qed.

Lemma SFdiv_nn (x y : spec_float) :
  nn x = true -> pos_finite y = true -> nn (SFdiv prec emax x y) = true.
Proof.
  destruct x as [sx|[]| |[] mx ex]; destruct y as [sy|[]| |[] my ey];
    simpl; try congruence; intros _ _.
  pose proof (SFdiv_core_binary_nonneg mx my ex ey) as H.
  destruct (SFdiv_core_binary prec emax (Z.pos mx) ex (Z.pos my) ey)
    as [[mz ez] lz].
  apply signed_false_nn, binary_round_aux_signed. exact H.
Qed.

Lemma SFadd_nn (x y : spec_float) :
  nn x = true -> nn y = true -> nn (SFadd prec emax x y) = true.
Proof.
  destruct x as [[]|[]| |[] mx ex]; destruct y as [[]|[]| |[] my ey];
    simpl; try congruence; intros _ _.
  apply signed_false_nn, binary_round_signed.
Qed.

End Rounding.

End FloatFacts.

(* ================================================================== *)
(** * The model client factory and the pricing table *)
(* ================================================================== *)

Lemma known_models_cases (m : string) :
  In m known_models ->
  m = "gpt-5" \/ m = "claude-sonnet-4-5-20250929"
  \/ m = "deepseek-chat" \/ m = "deepseek-chat-v3.1".
Proof. simpl. intuition auto. Qed.

(** Split a goal on the four identifiers of the enumerated set. *)
Ltac each_known_model H :=
  apply known_models_cases in H;
  destruct H as [-> | [-> | [-> | ->]]].

Lemma eqb_false_of_notin (m k : string) :
  ~ In m known_models -> In k known_models -> (m =? k) = false.
Proof.
  intros Hn Hk. apply String.eqb_neq. intros ->. exact (Hn Hk).
Qed.

Lemma priced_iff_known (m : string) :
  In m known_models <-> exists p, lookup m MODEL_PRICING = Some p.
Proof.
  split.
  - intros H. each_known_model H; eexists; reflexivity.
  - intros [p Hp]. unfold MODEL_PRICING in Hp. simpl in Hp.
    repeat match type of Hp with
           | context [String.eqb m ?k] =>
               destruct (String.eqb_spec m k) as [->|_]; [simpl; tauto|]
           end.
    discriminate.
Qed.

Section ClientFacts.

Context {client : Type}.
Variable getenv : string -> option string.
Variables ChatOpenAI ChatAnthropic : Kwargs.t -> outcome client.

Lemma get_model_known (m : string) (c : client) :
  get_model getenv ChatOpenAI ChatAnthropic m = Ok c -> In m known_models.
Proof.
  unfold get_model.
  repeat match goal with
         | |- context [String.eqb m ?k] =>
             destruct (String.eqb_spec m k) as [->|_]; [simpl; tauto|]
         end.
  discriminate.
Qed.

Lemma get_model_unknown (m : string) :
  ~ In m known_models ->
  get_model getenv ChatOpenAI ChatAnthropic m
  = Raise (mk_exn ValueError ("Unknown model: " ++ m)).
Proof.
  intros H. unfold get_model.
  rewrite !(eqb_false_of_notin m) by (assumption || (simpl; tauto)).
  reflexivity.
Qed.

(** [get_model] makes the recorded constructor call and hands back what the
    constructor returns or raises. *)
Lemma get_model_builds (m : string) :
  get_model getenv ChatOpenAI ChatAnthropic m
  = bind (constructor_call getenv m)
      (fun call =>
         match call with
         | OpenAIClient kwargs => ChatOpenAI kwargs
         | AnthropicClient kwargs => ChatAnthropic kwargs
         end).
Proof.
  unfold constructor_call, get_model.
  repeat match goal with
         | |- context [String.eqb m ?k] => destruct (String.eqb m k)
         end; reflexivity.
Qed.

(** C2, as the code has it: for each identifier of the enumerated set
    [get_model] calls the constructor of that provider's client class with
    the model name, temperature 0, the key read from the provider's
    environment variable and, for the two DeepSeek identifiers, the same model
    name and two distinct base URLs; its outcome is the constructor's: the
    client returned, or the exception raised.  Every client it returns was
    built with temperature 0 for an identifier of the set; any other
    identifier raises [ValueError("Unknown model: ...")]. *)
Theorem get_model_enumerated :
  get_model getenv ChatOpenAI ChatAnthropic "gpt-5"
    = ChatOpenAI (Kwargs.mk "gpt-5" 0 (getenv "OPENAI_API_KEY") None)
  /\ get_model getenv ChatOpenAI ChatAnthropic "claude-sonnet-4-5-20250929"
    = ChatAnthropic (Kwargs.mk "claude-sonnet-4-5-20250929" 0
                       (getenv "ANTHROPIC_API_KEY") None)
  /\ get_model getenv ChatOpenAI ChatAnthropic "deepseek-chat"
    = ChatOpenAI (Kwargs.mk "deepseek-chat" 0 (getenv "DEEPSEEK_API_KEY")
                    (Some "https://api.deepseek.com"))
  /\ get_model getenv ChatOpenAI ChatAnthropic "deepseek-chat-v3.1"
    = ChatOpenAI (Kwargs.mk "deepseek-chat" 0 (getenv "DEEPSEEK_API_KEY")
                    (Some "https://api.deepseek.com/v3.1_terminus_expires_on_20251015"))
  /\ (forall m c,
        get_model getenv ChatOpenAI ChatAnthropic m = Ok c ->
        In m known_models
        /\ exists kwargs,
             Kwargs.temperature kwargs = 0%Z
             /\ (ChatOpenAI kwargs = Ok c \/ ChatAnthropic kwargs = Ok c))
  /\ (forall m, ~ In m known_models ->
        get_model getenv ChatOpenAI ChatAnthropic m
        = Raise (mk_exn ValueError ("Unknown model: " ++ m))).
Proof.
  repeat split; try reflexivity.
  - exact (get_model_known m c H).
  - pose proof (get_model_known m c H) as Hk.
    each_known_model Hk; cbn in H; eexists; (split; [|eauto]); reflexivity.
  - intros m H. apply get_model_unknown, H.
Qed.

End ClientFacts.

Section ModelConfigFacts.

Variable getenv : string -> option string.
Variable requests_get : HttpRequest.t -> outcome HttpResponse.t.

(** C8: with the credential unset (or empty) the balance check returns [None]
    and issues no request; with a credential it issues exactly one request,
    returns the parsed body on status 200, and returns [None] on any other
    status and on any exception raised by the request or by the parsing. *)
Theorem check_deepseek_balance_cases :
  (getenv "DEEPSEEK_API_KEY" = None \/ getenv "DEEPSEEK_API_KEY" = Some "" ->
     check_deepseek_balance getenv requests_get = (Ok PNone, []))
  /\ (forall api_key,
        getenv "DEEPSEEK_API_KEY" = Some api_key -> api_key <> "" ->
        let request := balance_request api_key in
        let result := check_deepseek_balance getenv requests_get in
        snd result = [request]
        /\ (forall response body,
              requests_get request = Ok response ->
              HttpResponse.status_code response = 200%Z ->
              HttpResponse.json response = Ok body ->
              fst result = Ok body)
        /\ (forall response,
              requests_get request = Ok response ->
              HttpResponse.status_code response <> 200%Z ->
              fst result = Ok PNone)
        /\ (forall e,
              is_Exception e = true ->
              requests_get request = Raise e
              \/ (exists response,
                    requests_get request = Ok response
                    /\ HttpResponse.json response = Raise e) ->
              fst result = Ok PNone)).
Proof.
  split.
  - unfold check_deepseek_balance. intros [-> | ->]; reflexivity.
  - intros api_key Hkey Hne request result. subst result.
    unfold check_deepseek_balance. rewrite Hkey.
    apply String.eqb_neq in Hne. rewrite Hne.
    fold (balance_request api_key). fold request. simpl.
    repeat split.
    + intros response body -> H200 Hjson. simpl.
      rewrite H200, Hjson. reflexivity.
    + intros response -> Hst. simpl.
      apply Z.eqb_neq in Hst. rewrite Hst. reflexivity.
    + intros e He [-> | [response [-> Hjson]]]; simpl.
      * rewrite He. reflexivity.
      * destruct (Z.eqb (HttpResponse.status_code response) 200);
          [rewrite Hjson; simpl; rewrite He|]; reflexivity.
Qed.

End ModelConfigFacts.

Lemma get_model_enumerated_witness :
  get_model keyed_env sdk_ChatOpenAI sdk_ChatAnthropic "gpt-4"
  = Raise (mk_exn ValueError "Unknown model: gpt-4").
Proof.
  refine (proj2 (proj2 (proj2 (proj2 (proj2
            (get_model_enumerated keyed_env sdk_ChatOpenAI
               sdk_ChatAnthropic))))) "gpt-4" _).
  simpl. intuition discriminate.
Defined.

(** C2 fails where the constructor refuses to build: without the key in the
    environment the constructor raises, and so does [get_model] on an
    identifier of the enumerated set. *)
Lemma get_model_raises_without_key :
  In "gpt-5" known_models
  /\ get_model no_env sdk_ChatOpenAI sdk_ChatAnthropic "gpt-5"
     = Raise (mk_exn ProviderError "The api_key client option must be set")
  /\ ~ exists c,
       get_model no_env sdk_ChatOpenAI sdk_ChatAnthropic "gpt-5" = Ok c.
Proof.
  split; [simpl; tauto|]. split; [reflexivity|].
  intros [c H]. discriminate H.
Qed.

Lemma check_deepseek_balance_cases_witness :
  fst (check_deepseek_balance
         (fun _ => Some "sk-test")
         (fun _ => Ok (HttpResponse.mk 200 (Ok sample_balance_body))))
  = Ok sample_balance_body.
Proof.
  refine (proj1 (proj2 (proj2 (check_deepseek_balance_cases
            (fun _ => Some "sk-test")
            (fun _ => Ok (HttpResponse.mk 200 (Ok sample_balance_body))))
            "sk-test" _ _)) _ sample_balance_body _ _ _).
  - reflexivity.
  - discriminate.
  - reflexivity.
  - reflexivity.
  - reflexivity.
Defined.

Example cost_gpt5_100_50 :
  calculate_cost "gpt-5" (PInt 100) (PInt 50) = Ok (PyFloat.lit 0.00075).
Proof. vm_compute. reflexivity. Qed.

Example int_truediv_small :
  int_truediv 100 million = Ok (PyFloat.lit 0.0001).
Proof. vm_compute. reflexivity. Qed.

(** C4: for a priced model and integer token counts, [calculate_cost] is the
    design's formula; a million tokens each way cost the sum of the two
    prices, and no tokens cost zero. *)
Theorem calculate_cost_formula (m : string) (p : Pricing.t) (i o : Z) :
  lookup m MODEL_PRICING = Some p ->
  calculate_cost m (PInt i) (PInt o) = cost_formula p i o
  /\ calculate_cost m (PInt 1000000) (PInt 1000000)
     = Ok (PyFloat.add (Pricing.input p) (Pricing.output p))
  /\ calculate_cost m (PInt 0) (PInt 0) = Ok PyFloat.zero.
Proof.
  intros Hp. split.
  - unfold calculate_cost, pricing_of, cost_formula, div_million, million.
    rewrite Hp. reflexivity.
  - assert (Hk : In m known_models) by (apply priced_iff_known; eauto).
    each_known_model Hk;
      vm_compute in Hp; injection Hp as <-; split; vm_compute; reflexivity.
Qed.

Lemma calculate_cost_formula_witness :
  calculate_cost "deepseek-chat" (PInt 1000000) (PInt 1000000)
  = Ok (PyFloat.add (PyFloat.lit 0.28) (PyFloat.lit 0.42)).
Proof.
  refine (proj1 (proj2 (calculate_cost_formula "deepseek-chat"
            (Pricing.mk (PyFloat.lit 0.28) (PyFloat.lit 0.42) "DeepSeek v3.2-Exp")
            0 0 _))).
  reflexivity.
Defined.

(* ================================================================== *)
(** * The query dispatcher *)
(* ================================================================== *)

Lemma catchable_bind {A B} (x : outcome A) (f : A -> outcome B) :
  catchable x -> (forall a, catchable (f a)) -> catchable (bind x f).
Proof. destruct x as [a|e]; simpl; auto. Qed.

Lemma catchable_int_truediv (a b : Z) : catchable (int_truediv a b).
Proof. unfold int_truediv. destruct (PyFloat.is_inf _); exact I || reflexivity. Qed.

Lemma catchable_int_to_float (i : Z) : catchable (int_to_float i).
Proof. unfold int_to_float. destruct (PyFloat.is_inf _); exact I || reflexivity. Qed.

Lemma catchable_div_million (v : pyval) : catchable (div_million v).
Proof.
  destruct v; simpl; try reflexivity; try exact I.
  apply catchable_int_truediv.
Qed.

Lemma catchable_py_add (a b : pyval) : catchable (py_add a b).
Proof.
  destruct a, b; simpl; try reflexivity; try exact I;
    (apply catchable_bind; [apply catchable_int_to_float | intros; exact I]).
Qed.

Lemma catchable_py_contains (k : string) (v : pyval) : catchable (py_contains k v).
Proof. destruct v; simpl; try reflexivity; exact I. Qed.

Lemma catchable_py_getitem (v : pyval) (k : string) : catchable (py_getitem v k).
Proof.
  destruct v; simpl; try reflexivity.
  destruct (lookup k d); simpl; exact I || reflexivity.
Qed.

Lemma catchable_py_get (v : pyval) (k : string) (d : pyval) :
  catchable (py_get v k d).
Proof. destruct v; simpl; try reflexivity; exact I. Qed.

Lemma catchable_getattr (attr : string) (a : option pyval) :
  catchable (getattr attr a).
Proof. destruct a; simpl; exact I || reflexivity. Qed.

Lemma catchable_pricing_of (m : string) : catchable (pricing_of m).
Proof. unfold pricing_of. destruct (lookup m MODEL_PRICING); simpl; exact I || reflexivity. Qed.

Create HintDb catchable.

#[local] Hint Resolve catchable_int_truediv catchable_int_to_float
  catchable_div_million catchable_py_add catchable_py_contains
  catchable_py_getitem catchable_py_get catchable_getattr
  catchable_pricing_of : catchable.

(** Peel the binds of a monadic body, closing each step from the hints. *)
Ltac catchable_steps :=
  repeat (apply catchable_bind; [solve [auto with catchable] | intros]);
  try exact I.

Lemma catchable_calculate_cost (m : string) (i o : pyval) :
  catchable (calculate_cost m i o).
Proof. unfold calculate_cost. catchable_steps. Qed.

Lemma catchable_extract_usage (response : Response.t) :
  catchable (extract_usage response).
Proof.
  unfold extract_usage. apply catchable_bind.
  - destruct (Response.response_metadata response); auto with catchable.
    exact I.
  - intros [|]; [catchable_steps|].
    destruct (Response.usage_metadata response); [catchable_steps | exact I].
Qed.

#[local] Hint Resolve catchable_calculate_cost catchable_extract_usage
  : catchable.

Lemma catchable_query_success (m : string) (response : Response.t)
    (t : PyFloat.t) :
  catchable (query_success m response t).
Proof. unfold query_success. catchable_steps. Qed.

Lemma query_failure_priced (m : string) (p : Pricing.t) (e : exn) (t : PyFloat.t) :
  lookup m MODEL_PRICING = Some p ->
  query_failure m e t
  = Ok (error_result (Pricing.name p) (classify_error (exn_str e)) t).
Proof.
  intros Hp. unfold query_failure, pricing_of. rewrite Hp. reflexivity.
Qed.

Section QueryFacts.

Variable getenv : string -> option string.
Context {client : Type}.
Variables ChatOpenAI ChatAnthropic : Kwargs.t -> outcome client.
Variable invoke : client -> list Message -> outcome Response.t.
Variable time_time : nat -> PyFloat.t.

Lemma query_model_caught (m context question : string) (e : exn) :
  caught getenv ChatOpenAI ChatAnthropic invoke time_time m context question e ->
  exists p t,
    lookup m MODEL_PRICING = Some p
    /\ query_model getenv ChatOpenAI ChatAnthropic invoke time_time m context question
       = Ok (error_result (Pricing.name p) (classify_error (exn_str e)) t).
Proof.
  intros [c [Hc Hcase]].
  destruct (proj1 (priced_iff_known m) (get_model_known getenv ChatOpenAI ChatAnthropic m c Hc)) as [p Hp].
  unfold query_model. rewrite Hc. simpl.
  fold (messages_of context question).
  destruct Hcase as [[Hinv He] | [response [Hinv Hs]]]; rewrite Hinv.
  - rewrite He. exists p; eexists; split; [exact Hp|].
    apply query_failure_priced, Hp.
  - fold (elapsed time_time 1). rewrite Hs.
    pose proof (catchable_query_success m response (elapsed time_time 1)) as Hc'.
    rewrite Hs in Hc'. simpl in Hc'. rewrite Hc'.
    exists p; eexists; split; [exact Hp|].
    apply query_failure_priced, Hp.
Qed.

(** How a call on a known model ends: with the record of the success path, or
    with the record of the handler for a caught exception, or by letting
    through an exception of the provider that is no [Exception]. *)
Lemma query_model_cases (m context question : string) (c : client) :
  get_model getenv ChatOpenAI ChatAnthropic m = Ok c ->
  (exists response r,
     invoke c (messages_of context question) = Ok response
     /\ query_success m response (elapsed time_time 1) = Ok r
     /\ query_model getenv ChatOpenAI ChatAnthropic invoke time_time m context question = Ok r)
  \/ (exists e, caught getenv ChatOpenAI ChatAnthropic invoke time_time m context question e)
  \/ (exists e, invoke c (messages_of context question) = Raise e
        /\ is_Exception e = false
        /\ query_model getenv ChatOpenAI ChatAnthropic invoke time_time m context question = Raise e).
Proof.
  intros Hc.
  destruct (invoke c (messages_of context question)) as [response|e] eqn:Hinv.
  - destruct (query_success m response (elapsed time_time 1)) as [r|e] eqn:Hs.
    + left. exists response, r. repeat split; try assumption.
      unfold query_model. rewrite Hc. simpl.
      fold (messages_of context question). rewrite Hinv.
      fold (elapsed time_time 1). rewrite Hs. reflexivity.
    + right; left. exists e, c. split; [exact Hc|]. right.
      exists response. rewrite Hinv. auto.
  - destruct (is_Exception e) eqn:He.
    + right; left. exists e, c. split; [exact Hc|]. left. rewrite Hinv. auto.
    + right; right. exists e. repeat split; try assumption.
      unfold query_model. rewrite Hc. simpl.
      fold (messages_of context question). rewrite Hinv, He. reflexivity.
Qed.

End QueryFacts.

Section QueryErrors.

Variable getenv : string -> option string.
Context {client : Type}.
Variables ChatOpenAI ChatAnthropic : Kwargs.t -> outcome client.
Variable invoke : client -> list Message -> outcome Response.t.
Variable time_time : nat -> PyFloat.t.


(** C6, as the code has it: a caught exception whose message contains "402"
    or "Insufficient Balance" yields a result whose error is the balance
    message, which contains "Insufficient Balance" and the address of
    DeepSeek's billing page whichever model was queried, so that it names the
    provider of the model for the two DeepSeek identifiers only; tokens and
    cost are zero. *)
Theorem query_model_insufficient_balance (m context question : string) (e : exn) :
  caught getenv ChatOpenAI ChatAnthropic invoke time_time m context question e ->
  contains "402" (exn_str e) = true
  \/ contains "Insufficient Balance" (exn_str e) = true ->
  exists r msg,
    query_model getenv ChatOpenAI ChatAnthropic invoke time_time m context question = Ok r
    /\ QueryResult.error r = Some msg
    /\ contains "Insufficient Balance" msg = true
    /\ contains "https://platform.deepseek.com" msg = true
    /\ (contains (provider_of m) msg = true <->
        m = "deepseek-chat" \/ m = "deepseek-chat-v3.1")
    /\ QueryResult.cost r = PInt 0
    /\ QueryResult.input_tokens r = PInt 0
    /\ QueryResult.output_tokens r = PInt 0
    /\ QueryResult.total_tokens r = PInt 0.
Proof.
  intros He Hmsg.
  destruct (query_model_caught _ _ _ _ _ _ _ _ _ He) as [p [t [Hp Hr]]].
  assert (Hc : classify_error (exn_str e) = balance_message).
  { unfold classify_error. destruct Hmsg as [-> | ->];
      [|rewrite orb_true_r]; reflexivity. }
  rewrite Hc in Hr.
  assert (Hk : In m known_models) by (apply priced_iff_known; eauto).
  exists (error_result (Pricing.name p) balance_message t), balance_message.
  repeat split; try reflexivity; try exact Hr.
  - each_known_model Hk; vm_compute; intros H; try discriminate H; tauto.
  - intros [-> | ->]; reflexivity.
Qed.

(** C7, as the code has it: a caught exception whose message contains "401"
    or "Unauthorized" and matches neither balance pattern yields an error
    containing "Invalid API key"; a message matching none of the four patterns
    is the error unchanged. *)
Theorem query_model_invalid_key_or_raw (m context question : string) (e : exn) :
  caught getenv ChatOpenAI ChatAnthropic invoke time_time m context question e ->
  contains "402" (exn_str e) = false ->
  contains "Insufficient Balance" (exn_str e) = false ->
  exists r msg,
    query_model getenv ChatOpenAI ChatAnthropic invoke time_time m context question = Ok r
    /\ QueryResult.error r = Some msg
    /\ (contains "401" (exn_str e) = true
        \/ contains "Unauthorized" (exn_str e) = true ->
        contains "Invalid API key" msg = true)
    /\ (contains "401" (exn_str e) = false ->
        contains "Unauthorized" (exn_str e) = false ->
        msg = exn_str e).
Proof.
  intros He H402 Hbal.
  destruct (query_model_caught _ _ _ _ _ _ _ _ _ He) as [p [t [_ Hr]]].
  eexists; eexists. split; [exact Hr|]. split; [reflexivity|].
  unfold classify_error. rewrite H402, Hbal. simpl. split.
  - intros [-> | ->]; [|rewrite orb_true_r]; reflexivity.
  - intros -> ->. reflexivity.
Qed.

End QueryErrors.



Lemma query_model_insufficient_balance_witness :
  exists r msg,
    query_model keyed_env sdk_ChatOpenAI sdk_ChatAnthropic
      (failing (mk_exn ProviderError "Error code: 402 - Payment Required"))
      ticking "deepseek-chat" "context" "question" = Ok r
    /\ QueryResult.error r = Some msg
    /\ contains "Insufficient Balance" msg = true
    /\ contains "https://platform.deepseek.com" msg = true
    /\ (contains (provider_of "deepseek-chat") msg = true <->
        "deepseek-chat" = "deepseek-chat" \/ "deepseek-chat" = "deepseek-chat-v3.1")
    /\ QueryResult.cost r = PInt 0
    /\ QueryResult.input_tokens r = PInt 0
    /\ QueryResult.output_tokens r = PInt 0
    /\ QueryResult.total_tokens r = PInt 0.
Proof.
  refine (query_model_insufficient_balance keyed_env sdk_ChatOpenAI sdk_ChatAnthropic
            (failing (mk_exn ProviderError "Error code: 402 - Payment Required"))
            ticking "deepseek-chat" "context" "question"
            (mk_exn ProviderError "Error code: 402 - Payment Required") _ _).
  - eexists. split; [reflexivity|]. left. split; reflexivity.
  - left. reflexivity.
Defined.

(** C6 fails on a model of another provider: a 402 from the OpenAI model is
    answered with the DeepSeek message, which does not name OpenAI. *)
Lemma query_model_402_names_deepseek_for_gpt5 :
  exists r,
    query_model keyed_env sdk_ChatOpenAI sdk_ChatAnthropic
      (failing (mk_exn ProviderError "Error code: 402 - Payment Required"))
      ticking "gpt-5" "context" "question" = Ok r
    /\ QueryResult.error r = Some balance_message
    /\ provider_of "gpt-5" = "OpenAI"
    /\ contains "OpenAI" balance_message = false
    /\ contains "your DeepSeek account at https://platform.deepseek.com"
         balance_message = true.
Proof.
  eexists. repeat split.
Qed.

(** C7 fails when the message also matches a balance pattern: the balance
    branch is tested first. *)
Lemma query_model_401_with_402_is_balance :
  exists r,
    query_model keyed_env sdk_ChatOpenAI sdk_ChatAnthropic
      (failing (mk_exn ProviderError "Error code: 401 (request 4021)"))
      ticking "gpt-5" "context" "question" = Ok r
    /\ contains "401" "Error code: 401 (request 4021)" = true
    /\ QueryResult.error r = Some balance_message
    /\ contains "Invalid API key" balance_message = false.
Proof.
  eexists. repeat split.
Qed.

Lemma query_model_invalid_key_or_raw_witness :
  exists r msg,
    query_model keyed_env sdk_ChatOpenAI sdk_ChatAnthropic
      (failing (mk_exn ProviderError "Error code: 401 - Unauthorized"))
      ticking "gpt-5" "context" "question" = Ok r
    /\ QueryResult.error r = Some msg
    /\ (contains "401" "Error code: 401 - Unauthorized" = true
        \/ contains "Unauthorized" "Error code: 401 - Unauthorized" = true ->
        contains "Invalid API key" msg = true)
    /\ (contains "401" "Error code: 401 - Unauthorized" = false ->
        contains "Unauthorized" "Error code: 401 - Unauthorized" = false ->
        msg = "Error code: 401 - Unauthorized").
Proof.
  refine (query_model_invalid_key_or_raw keyed_env sdk_ChatOpenAI sdk_ChatAnthropic
            (failing (mk_exn ProviderError "Error code: 401 - Unauthorized"))
            ticking "gpt-5" "context" "question"
            (mk_exn ProviderError "Error code: 401 - Unauthorized") _ _ _).
  - eexists. split; [reflexivity|]. left. split; reflexivity.
  - reflexivity.
  - reflexivity.
Defined.

(* ================================================================== *)
(** * Token usage and the result record *)
(* ================================================================== *)

Lemma extract_usage_nested (response : Response.t) (md tu : list (string * pyval)) :
  Response.response_metadata response = Some (PDict md) ->
  lookup "token_usage" md = Some (PDict tu) ->
  extract_usage response
  = Ok (dict_get tu "prompt_tokens" (PInt 0),
        dict_get tu "completion_tokens" (PInt 0)).
Proof.
  intros Hmd Htu. unfold extract_usage. rewrite Hmd. simpl.
  rewrite Htu. reflexivity.
Qed.

Lemma extract_usage_flat (response : Response.t) (um : list (string * pyval)) :
  no_token_usage response = true ->
  Response.usage_metadata response = Some (PDict um) ->
  extract_usage response
  = Ok (dict_get um "input_tokens" (PInt 0),
        dict_get um "output_tokens" (PInt 0)).
Proof.
  unfold no_token_usage, extract_usage. intros Hno Hum.
  destruct (Response.response_metadata response) as [[| | | |md]|];
    try discriminate; simpl.
  - destruct (lookup "token_usage" md); try discriminate.
    simpl. rewrite Hum. reflexivity.
  - rewrite Hum. reflexivity.
Qed.

Lemma extract_usage_absent (response : Response.t) :
  no_token_usage response = true ->
  Response.usage_metadata response = None ->
  extract_usage response = Ok (PInt 0, PInt 0).
Proof.
  unfold no_token_usage, extract_usage. intros Hno Hum.
  destruct (Response.response_metadata response) as [[| | | |md]|];
    try discriminate; simpl.
  - destruct (lookup "token_usage" md); try discriminate.
    simpl. rewrite Hum. reflexivity.
  - rewrite Hum. reflexivity.
Qed.

Lemma query_success_ints (m : string) (p : Pricing.t) (response : Response.t)
    (i o : Z) (cost : PyFloat.t) (text : pyval) (t : PyFloat.t) :
  lookup m MODEL_PRICING = Some p ->
  extract_usage response = Ok (PInt i, PInt o) ->
  calculate_cost m (PInt i) (PInt o) = Ok cost ->
  Response.content response = Some text ->
  query_success m response t
  = Ok (QueryResult.mk (Pricing.name p) text (PInt i) (PInt o) (PInt (i + o))
          (PFloat cost) t None).
Proof.
  intros Hp Hu Hc Ht. unfold query_success.
  rewrite Hu. simpl. rewrite Hc. simpl.
  unfold pricing_of. rewrite Hp. simpl. rewrite Ht. reflexivity.
Qed.

Lemma query_success_inv (m : string) (response : Response.t) (t : PyFloat.t)
    (r : QueryResult.t) :
  query_success m response t = Ok r ->
  exists i o cost p text total,
    extract_usage response = Ok (i, o)
    /\ calculate_cost m i o = Ok cost
    /\ lookup m MODEL_PRICING = Some p
    /\ Response.content response = Some text
    /\ py_add i o = Ok total
    /\ r = QueryResult.mk (Pricing.name p) text i o total (PFloat cost) t None.
Proof.
  unfold query_success. intros H.
  destruct (extract_usage response) as [[i o]|] eqn:Hu; try discriminate.
  simpl in H.
  destruct (calculate_cost m i o) as [cost|] eqn:Hc; try discriminate.
  simpl in H. unfold pricing_of in H.
  destruct (lookup m MODEL_PRICING) as [p|] eqn:Hp; try discriminate.
  simpl in H.
  destruct (Response.content response) as [text|] eqn:Ht; try discriminate.
  simpl in H.
  destruct (py_add i o) as [total|] eqn:Ha; try discriminate.
  simpl in H. injection H as <-.
  exists i, o, cost, p, text, total. repeat split; assumption || reflexivity.
Qed.

Lemma prices_positive (m : string) (p : Pricing.t) :
  lookup m MODEL_PRICING = Some p ->
  FloatSign.pos_finite (Pricing.input p) = true
  /\ FloatSign.pos_finite (Pricing.output p) = true.
Proof.
  intros Hp.
  assert (Hk : In m known_models) by (apply priced_iff_known; eauto).
  each_known_model Hk;
    vm_compute in Hp; injection Hp as <-; split; vm_compute; reflexivity.
Qed.

Lemma div_million_nonneg (v : pyval) (q : PyFloat.t) :
  py_nonneg v = true -> div_million v = Ok q -> FloatSign.nn q = true.
Proof.
  destruct v as [|i|f|s|d]; simpl; try discriminate.
  - intros Hi. unfold int_truediv.
    destruct (PyFloat.is_inf _); try discriminate.
    intros H. injection H as <-.
    apply FloatFacts.SFdiv_nn; [|reflexivity].
    apply Z.leb_le in Hi. destruct i; simpl; try reflexivity. lia.
  - rewrite FloatFacts.nonneg_nn. intros Hf H. injection H as <-.
    apply FloatFacts.SFdiv_nn; [exact Hf | reflexivity].
Qed.

Lemma calculate_cost_nonneg (m : string) (i o : pyval) (cost : PyFloat.t) :
  py_nonneg i = true -> py_nonneg o = true ->
  calculate_cost m i o = Ok cost ->
  PyFloat.nonneg cost = true.
Proof.
  intros Hi Ho. unfold calculate_cost, pricing_of.
  destruct (lookup m MODEL_PRICING) as [p|] eqn:Hp; try discriminate.
  simpl.
  destruct (div_million i) as [qi|] eqn:Hqi; try discriminate. simpl.
  destruct (div_million o) as [qo|] eqn:Hqo; try discriminate. simpl.
  intros H. injection H as <-.
  destruct (prices_positive m p Hp) as [Hpi Hpo].
  rewrite FloatFacts.nonneg_nn.
  apply FloatFacts.SFadd_nn; apply FloatFacts.SFmul_nn;
    eauto using div_million_nonneg.
Qed.

Lemma calculate_cost_zero (m : string) :
  In m known_models ->
  calculate_cost m (PInt 0) (PInt 0) = Ok PyFloat.zero.
Proof.
  intros Hk. each_known_model Hk; vm_compute; reflexivity.
Qed.

Lemma calculate_cost_100_50 (m : string) :
  In m known_models ->
  exists cost, calculate_cost m (PInt 100) (PInt 50) = Ok cost.
Proof.
  intros Hk. each_known_model Hk; eexists; vm_compute; reflexivity.
Qed.

Section QueryUsage.

Variable getenv : string -> option string.
Context {client : Type}.
Variables ChatOpenAI ChatAnthropic : Kwargs.t -> outcome client.
Variable invoke : client -> list Message -> outcome Response.t.
Variable time_time : nat -> PyFloat.t.

Lemma query_model_success (m context question : string) (c : client)
    (response : Response.t) (r : QueryResult.t) :
  get_model getenv ChatOpenAI ChatAnthropic m = Ok c ->
  invoke c (messages_of context question) = Ok response ->
  query_success m response (elapsed time_time 1) = Ok r ->
  query_model getenv ChatOpenAI ChatAnthropic invoke time_time m context question = Ok r.
Proof.
  intros Hc Hinv Hs. unfold query_model. rewrite Hc. simpl.
  fold (messages_of context question). rewrite Hinv.
  fold (elapsed time_time 1). rewrite Hs. reflexivity.
Qed.

Lemma query_model_ints (m context question : string) (c : client)
    (response : Response.t) (i o : Z) (cost : PyFloat.t) (text : pyval) :
  get_model getenv ChatOpenAI ChatAnthropic m = Ok c ->
  invoke c (messages_of context question) = Ok response ->
  Response.content response = Some text ->
  extract_usage response = Ok (PInt i, PInt o) ->
  calculate_cost m (PInt i) (PInt o) = Ok cost ->
  exists r,
    query_model getenv ChatOpenAI ChatAnthropic invoke time_time m context question = Ok r
    /\ QueryResult.input_tokens r = PInt i
    /\ QueryResult.output_tokens r = PInt o
    /\ QueryResult.total_tokens r = PInt (i + o)
    /\ QueryResult.cost r = PFloat cost
    /\ QueryResult.response r = text
    /\ QueryResult.error r = None.
Proof.
  intros Hc Hinv Ht Hu Hcost.
  destruct (proj1 (priced_iff_known m) (get_model_known getenv ChatOpenAI ChatAnthropic m c Hc))
    as [p Hp].
  eexists. split.
  - eapply query_model_success; eauto.
    eapply query_success_ints; eauto.
  - repeat split.
Qed.

(** X22: when the provider answers with a response that has a content, token
    counts are read from the nested shape (a) or from the flat shape (b);
    shape (b) with 100 and 50 gives a total of 150, the cost of
    [calculate_cost m 100 50] and no error; a response without 'token_usage'
    and without any [usage_metadata] attribute gives zero counts, zero cost
    and no error. *)
Theorem query_model_usage_shapes (m context question : string) (c : client)
    (response : Response.t) (text : pyval) :
  get_model getenv ChatOpenAI ChatAnthropic m = Ok c ->
  invoke c (messages_of context question) = Ok response ->
  Response.content response = Some text ->
  (forall md tu i o cost,
     Response.response_metadata response = Some (PDict md) ->
     lookup "token_usage" md = Some (PDict tu) ->
     lookup "prompt_tokens" tu = Some (PInt i) ->
     lookup "completion_tokens" tu = Some (PInt o) ->
     calculate_cost m (PInt i) (PInt o) = Ok cost ->
     exists r,
       query_model getenv ChatOpenAI ChatAnthropic invoke time_time m context question = Ok r
       /\ QueryResult.input_tokens r = PInt i
       /\ QueryResult.output_tokens r = PInt o
       /\ QueryResult.total_tokens r = PInt (i + o)
       /\ QueryResult.cost r = PFloat cost
       /\ QueryResult.error r = None)
  /\ (forall um i o cost,
        no_token_usage response = true ->
        Response.usage_metadata response = Some (PDict um) ->
        lookup "input_tokens" um = Some (PInt i) ->
        lookup "output_tokens" um = Some (PInt o) ->
        calculate_cost m (PInt i) (PInt o) = Ok cost ->
        exists r,
          query_model getenv ChatOpenAI ChatAnthropic invoke time_time m context question = Ok r
          /\ QueryResult.input_tokens r = PInt i
          /\ QueryResult.output_tokens r = PInt o
          /\ QueryResult.total_tokens r = PInt (i + o)
          /\ QueryResult.cost r = PFloat cost
          /\ QueryResult.error r = None)
  /\ (forall um,
        no_token_usage response = true ->
        Response.usage_metadata response = Some (PDict um) ->
        lookup "input_tokens" um = Some (PInt 100) ->
        lookup "output_tokens" um = Some (PInt 50) ->
        exists r cost,
          query_model getenv ChatOpenAI ChatAnthropic invoke time_time m context question = Ok r
          /\ QueryResult.total_tokens r = PInt 150
          /\ calculate_cost m (PInt 100) (PInt 50) = Ok cost
          /\ QueryResult.cost r = PFloat cost
          /\ QueryResult.error r = None)
  /\ (no_token_usage response = true ->
      Response.usage_metadata response = None ->
      exists r,
        query_model getenv ChatOpenAI ChatAnthropic invoke time_time m context question = Ok r
        /\ QueryResult.input_tokens r = PInt 0
        /\ QueryResult.output_tokens r = PInt 0
        /\ QueryResult.total_tokens r = PInt 0
        /\ QueryResult.cost r = PFloat PyFloat.zero
        /\ QueryResult.error r = None).
Proof.
  intros Hc Hinv Ht.
  pose proof (get_model_known getenv ChatOpenAI ChatAnthropic m c Hc) as Hk.
  repeat apply conj.
  - intros md tu i o cost Hmd Htu Hi Ho Hcost.
    destruct (query_model_ints m context question c response i o cost text)
      as [r Hr]; auto.
    + rewrite (extract_usage_nested response md tu Hmd Htu).
      unfold dict_get. rewrite Hi, Ho. reflexivity.
    + exists r. tauto.
  - intros um i o cost Hno Hum Hi Ho Hcost.
    destruct (query_model_ints m context question c response i o cost text)
      as [r Hr]; auto.
    + rewrite (extract_usage_flat response um Hno Hum).
      unfold dict_get. rewrite Hi, Ho. reflexivity.
    + exists r. tauto.
  - intros um Hno Hum Hi Ho.
    destruct (calculate_cost_100_50 m Hk) as [cost Hcost].
    destruct (query_model_ints m context question c response 100 50 cost text)
      as [r Hr]; auto.
    + rewrite (extract_usage_flat response um Hno Hum).
      unfold dict_get. rewrite Hi, Ho. reflexivity.
    + exists r, cost. simpl in Hr. tauto.
  - intros Hno Hum.
    destruct (query_model_ints m context question c response 0 0
                PyFloat.zero text) as [r Hr]; auto.
    + apply extract_usage_absent; assumption.
    + apply calculate_cost_zero, Hk.
    + exists r. simpl in Hr. tauto.
Qed.

(** C10: when the response metadata carries a 'token_usage' dict, the counts
    are its 'prompt_tokens' and 'completion_tokens' entries, each 0 when
    missing, whatever the [usage_metadata] attribute holds: with integer
    entries, a computable cost and a content, [query_model] returns the
    error-free record of exactly those counts, their sum and their cost, and a
    provider answering with another [usage_metadata] gives the same record. *)
Theorem token_usage_takes_precedence (m context question : string)
    (c : client) (response : Response.t) (md tu : list (string * pyval))
    (i o : Z) (cost : PyFloat.t) (text : pyval) :
  get_model getenv ChatOpenAI ChatAnthropic m = Ok c ->
  invoke c (messages_of context question) = Ok response ->
  Response.response_metadata response = Some (PDict md) ->
  lookup "token_usage" md = Some (PDict tu) ->
  dict_get tu "prompt_tokens" (PInt 0) = PInt i ->
  dict_get tu "completion_tokens" (PInt 0) = PInt o ->
  calculate_cost m (PInt i) (PInt o) = Ok cost ->
  Response.content response = Some text ->
  extract_usage response = Ok (PInt i, PInt o)
  /\ query_model getenv ChatOpenAI ChatAnthropic invoke time_time m context
      question
     = Ok (QueryResult.mk (display_name m) text (PInt i) (PInt o)
             (PInt (i + o)) (PFloat cost) (elapsed time_time 1) None)
  /\ (lookup "prompt_tokens" tu = None -> i = 0%Z)
  /\ (lookup "completion_tokens" tu = None -> o = 0%Z)
  /\ (forall invoke' um',
        invoke' c (messages_of context question)
        = Ok (Response.mk (Response.response_metadata response) um'
                (Response.content response)) ->
        query_model getenv ChatOpenAI ChatAnthropic invoke' time_time m
          context question
        = query_model getenv ChatOpenAI ChatAnthropic invoke time_time m context
      question).
Proof.
  intros Hc Hinv Hmd Htu Hi Ho Hcost Ht.
  pose proof (extract_usage_nested response md tu Hmd Htu) as Hu.
  rewrite Hi, Ho in Hu.
  destruct (proj1 (priced_iff_known m)
              (get_model_known getenv ChatOpenAI ChatAnthropic m c Hc))
    as [p Hp].
  assert (Hrun : forall inv resp,
             inv c (messages_of context question) = Ok resp ->
             extract_usage resp = Ok (PInt i, PInt o) ->
             Response.content resp = Some text ->
             query_model getenv ChatOpenAI ChatAnthropic inv time_time m
               context question
             = Ok (QueryResult.mk (display_name m) text (PInt i) (PInt o)
                     (PInt (i + o)) (PFloat cost) (elapsed time_time 1)
                     None)).
  { intros inv resp Hinv' Hu' Ht'.
    unfold query_model. rewrite Hc. cbn [bind].
    fold (messages_of context question). rewrite Hinv'.
    fold (elapsed time_time 1).
    rewrite (query_success_ints m p resp i o cost text _ Hp Hu' Hcost Ht').
    unfold display_name. rewrite Hp. reflexivity. }
  split; [exact Hu|]. split; [exact (Hrun invoke response Hinv Hu Ht)|].
  split; [|split].
  - intros Hn. unfold dict_get in Hi. rewrite Hn in Hi. congruence.
  - intros Hn. unfold dict_get in Ho. rewrite Hn in Ho. congruence.
  - intros invoke' um' Hinv'.
    rewrite (Hrun invoke response Hinv Hu Ht).
    apply (Hrun invoke' _ Hinv'); [|exact Ht].
    rewrite (extract_usage_nested
               (Response.mk (Response.response_metadata response) um'
                  (Response.content response)) md tu Hmd Htu), Hi, Ho.
    reflexivity.
Qed.

(** C5, as the code has it: every result [query_model] returns has its total
    equal to the sum of its two counts; its cost is non-negative when its
    counts are (the prices of the table being positive); and when it carries
    an error, its response is that error message prefixed with "Error: " and
    its counts, total and cost are the integer 0. *)
Theorem query_result_invariants (m context question : string)
    (r : QueryResult.t) :
  query_model getenv ChatOpenAI ChatAnthropic invoke time_time m context question = Ok r ->
  py_add (QueryResult.input_tokens r) (QueryResult.output_tokens r)
  = Ok (QueryResult.total_tokens r)
  /\ (py_nonneg (QueryResult.input_tokens r) = true ->
      py_nonneg (QueryResult.output_tokens r) = true ->
      py_nonneg (QueryResult.cost r) = true)
  /\ (forall msg,
        QueryResult.error r = Some msg ->
        QueryResult.response r = PStr ("Error: " ++ msg)
        /\ QueryResult.input_tokens r = PInt 0
        /\ QueryResult.output_tokens r = PInt 0
        /\ QueryResult.total_tokens r = PInt 0
        /\ QueryResult.cost r = PInt 0).
Proof.
  intros Hr.
  assert (Hc : exists c, get_model getenv ChatOpenAI ChatAnthropic m = Ok c).
  { unfold query_model in Hr.
    destruct (get_model getenv ChatOpenAI ChatAnthropic m) as [c|];
      [eauto | discriminate]. }
  destruct Hc as [c Hc].
  destruct (query_model_cases getenv ChatOpenAI ChatAnthropic invoke time_time
              m context question c Hc)
    as [[response [r' [_ [Hs Hr']]]] | [[e He] | [e [_ [_ Hr']]]]].
  - assert (r' = r) by congruence. subst r'.
    destruct (query_success_inv _ _ _ _ Hs)
      as [i [o [cost [p [text [total [_ [Hcost [_ [_ [Hadd ->]]]]]]]]]]].
    pose proof (fun Hi Ho => calculate_cost_nonneg m i o cost Hi Ho Hcost)
      as Hnn.
    split; [exact Hadd|]. split; [exact Hnn|].
    intros msg H. discriminate H.
  - destruct (query_model_caught _ _ _ _ _ _ _ _ _ He) as [p [t [_ Hr']]].
    assert (r = error_result (Pricing.name p) (classify_error (exn_str e)) t)
      by congruence.
    subst r. cbn. split; [reflexivity|]. split; [reflexivity|].
    intros msg H. injection H as <-. repeat split.
  - congruence.
Qed.

End QueryUsage.

Example query_model_flat_answer :
  query_model keyed_env sdk_ChatOpenAI sdk_ChatAnthropic (answering flat_answer) ticking "gpt-5" "context" "question"
  = Ok flat_result.
Proof. vm_compute. reflexivity. Qed.

Lemma query_model_usage_shapes_witness :
  exists r cost,
    query_model keyed_env sdk_ChatOpenAI sdk_ChatAnthropic (answering flat_answer) ticking
      "gpt-5" "context" "question" = Ok r
    /\ QueryResult.total_tokens r = PInt 150
    /\ calculate_cost "gpt-5" (PInt 100) (PInt 50) = Ok cost
    /\ QueryResult.cost r = PFloat cost
    /\ QueryResult.error r = None.
Proof.
  refine (proj1 (proj2 (proj2 (query_model_usage_shapes keyed_env sdk_ChatOpenAI sdk_ChatAnthropic
            (answering flat_answer) ticking "gpt-5" "context" "question"
            gpt5_client flat_answer (PStr "42") _ _ _)))
            [("input_tokens", PInt 100); ("output_tokens", PInt 50)] _ _ _ _);
    reflexivity.
Defined.

Lemma token_usage_takes_precedence_witness :
  exists cost,
    calculate_cost "gpt-5" (PInt 7) (PInt 0) = Ok cost
    /\ extract_usage both_answer = Ok (PInt 7, PInt 0)
    /\ query_model keyed_env sdk_ChatOpenAI sdk_ChatAnthropic
         (answering both_answer) ticking "gpt-5" "context" "question"
       = Ok (QueryResult.mk "GPT-5" (PStr "42") (PInt 7) (PInt 0) (PInt 7)
               (PFloat cost) (elapsed ticking 1) None).
Proof.
  eexists. split; [vm_compute; reflexivity|].
  destruct (token_usage_takes_precedence keyed_env sdk_ChatOpenAI sdk_ChatAnthropic
              (answering both_answer) ticking "gpt-5" "context" "question"
              gpt5_client both_answer
              [("token_usage", PDict [("prompt_tokens", PInt 7)])]
              [("prompt_tokens", PInt 7)] 7 0 _ (PStr "42")
              eq_refl eq_refl eq_refl eq_refl eq_refl eq_refl eq_refl eq_refl)
    as [Hu [Hr _]].
  split; [exact Hu | exact Hr].
Defined.

Lemma query_result_invariants_witness :
  py_add (PInt 0) (PInt 0) = Ok (PInt 0)
  /\ (py_nonneg (PInt 0) = true ->
      py_nonneg (PInt 0) = true ->
      py_nonneg (PInt 0) = true)
  /\ (forall msg,
        Some "Connection error." = Some msg ->
        PStr "Error: Connection error." = PStr ("Error: " ++ msg)
        /\ PInt 0 = PInt 0 /\ PInt 0 = PInt 0 /\ PInt 0 = PInt 0
        /\ PInt 0 = PInt 0).
Proof.
  refine (query_result_invariants keyed_env sdk_ChatOpenAI sdk_ChatAnthropic
            (failing (mk_exn ProviderError "Connection error.")) ticking
            "gpt-5" "context" "question"
            (error_result "GPT-5" "Connection error." (elapsed ticking 1)) _).
  vm_compute. reflexivity.
Defined.

(** C5, the equivalence as the spec words it, fails from right to left: an
    answer whose own text is "Error: no such document" and that reports no
    usage gives a result whose response is a message prefixed with "Error: "
    and whose counts, total and cost are all zero, and that result carries no
    error. *)
Lemma error_like_answer_has_no_error :
  exists r,
    query_model keyed_env sdk_ChatOpenAI sdk_ChatAnthropic
      (answering
         (Response.mk None None (Some (PStr "Error: no such document"))))
      ticking "gpt-5" "context" "question" = Ok r
    /\ (exists msg, QueryResult.response r = PStr ("Error: " ++ msg))
    /\ py_is_zero (QueryResult.input_tokens r) = true
    /\ py_is_zero (QueryResult.output_tokens r) = true
    /\ py_is_zero (QueryResult.total_tokens r) = true
    /\ py_is_zero (QueryResult.cost r) = true
    /\ QueryResult.error r = None.
Proof.
  eexists. split; [vm_compute; reflexivity|].
  split; [exists "no such document"; reflexivity|].
  repeat split.
Qed.

(** C3, the response without usage: an answer "42" of gpt-5 whose
    [response_metadata] is [{}] and whose [usage_metadata] attribute is
    [None] carries neither shape, and [query_model] returns for it a record
    with the error "'NoneType' object has no attribute 'get'" and the response
    "Error: ..." of that message, its counts and cost being zero; the answer
    "42" is lost. *)
Lemma usage_metadata_None_is_an_error :
  query_model keyed_env sdk_ChatOpenAI sdk_ChatAnthropic
    (answering unmetered_answer) ticking "gpt-5" "context" "question"
  = Ok (QueryResult.mk "GPT-5"
          (PStr "Error: 'NoneType' object has no attribute 'get'")
          (PInt 0) (PInt 0) (PInt 0) (PInt 0) (elapsed ticking 2)
          (Some "'NoneType' object has no attribute 'get'")).
Proof. vm_compute. reflexivity. Qed.

(* ================================================================== *)
(** * The document loader *)
(* ================================================================== *)

Lemma string_append_assoc (a b c : string) : (a ++ b) ++ c = a ++ (b ++ c).
Proof. induction a as [|x a IH]; simpl; [reflexivity | now rewrite IH]. Qed.

Section DocumentFacts.

Variable listdir : string -> list string.
Variable PyPDFLoader_load : string -> outcome (list string).
Variable encoding_for_model : string -> outcome (string -> outcome (list nat)).

(** The pages of each document once loaded. *)
Variable pages_of : string -> list string.

Lemma load_loop_loaded (documents_dir : string) (files : list string) :
  (forall f, In f files ->
     PyPDFLoader_load (path_str documents_dir f) = Ok (pages_of f)) ->
  forall all_text document_names,
    load_loop PyPDFLoader_load documents_dir files all_text document_names
    = Ok (all_text ++ context_of pages_of files, (document_names ++ files)%list).
Proof.
  induction files as [|f rest IH]; intros Hload all_text names.
  - cbn [load_loop context_of fold_right]. rewrite app_nil_r.
    assert (H : all_text ++ "" = all_text).
    { induction all_text as [|x a IHa]; simpl; [reflexivity | now rewrite IHa]. }
    rewrite H. reflexivity.
  - cbn [load_loop]. rewrite (Hload f (or_introl eq_refl)). cbn [bind].
    rewrite IH by (intros g Hg; apply Hload; right; exact Hg).
    rewrite <- app_assoc. cbn [app].
    change (context_of pages_of (f :: rest))
      with (document_block pages_of f ++ context_of pages_of rest).
    unfold document_block.
    rewrite !string_append_assoc. reflexivity.
Qed.

(** C9: when every PDF of the directory loads and the tokenizer encodes the
    context, [load_documents] returns the concatenation of the documents'
    blocks, each starting with its [=== Document: <filename> ===] header, in
    the order of the file names; the number of tokens of that context; and the
    file names in that order, which are exactly the [*.pdf] entries of the
    directory.  With no PDF the context is empty, the names are empty and the
    count is 0, the tokenizer encoding the empty text to no token. *)
Theorem load_documents_sorted_concat (documents_dir : string)
    (encode : string -> outcome (list nat)) :
  encoding_for_model "gpt-4" = Ok encode ->
  (forall f, In f (glob_pdf listdir documents_dir) ->
     PyPDFLoader_load (path_str documents_dir f) = Ok (pages_of f)) ->
  let names := sorted (glob_pdf listdir documents_dir) in
  (forall tokens,
     encode (context_of pages_of names) = Ok tokens ->
     load_documents listdir PyPDFLoader_load encoding_for_model documents_dir
     = Ok (context_of pages_of names, Z.of_nat (List.length tokens), names))
  /\ Sorted filename_le names
  /\ Permutation (glob_pdf listdir documents_dir) names
  /\ (forall f, In f names <->
        In f (listdir documents_dir) /\ ends_with ".pdf" f = true)
  /\ (glob_pdf listdir documents_dir = [] ->
      encode "" = Ok [] ->
      load_documents listdir PyPDFLoader_load encoding_for_model documents_dir
      = Ok ("", 0%Z, [])).
Proof.
  intros Henc Hload names.
  assert (Hperm : Permutation (glob_pdf listdir documents_dir) names)
    by apply StringSort.Permuted_sort.
  assert (Hrun : forall tokens,
             encode (context_of pages_of names) = Ok tokens ->
             load_documents listdir PyPDFLoader_load encoding_for_model
               documents_dir
             = Ok (context_of pages_of names, Z.of_nat (List.length tokens), names)).
  { intros tokens Htok. unfold load_documents. fold names.
    rewrite (load_loop_loaded documents_dir names).
    - simpl. rewrite Henc. simpl. rewrite Htok. reflexivity.
    - intros f Hf. apply Hload.
      apply Permutation_in with (l := names); [symmetry; exact Hperm | exact Hf]. }
  split; [exact Hrun|]. split; [|split; [exact Hperm|split]].
  - apply StringSort.Sorted_sort.
  - intros f. unfold glob_pdf in Hperm. rewrite <- filter_In. split; intros Hf.
    + apply Permutation_in with (l := names); [symmetry; exact Hperm | exact Hf].
    + apply Permutation_in with (l' := names) in Hf; [exact Hf | exact Hperm].
  - intros Hempty Htok.
    assert (Hnames : names = []).
    { unfold names. rewrite Hempty. reflexivity. }
    specialize (Hrun [] ). rewrite Hnames in Hrun. simpl in Hrun.
    apply Hrun, Htok.
Qed.

End DocumentFacts.

Lemma load_documents_sorted_concat_witness :
  load_documents sample_listdir sample_loader sample_encoding "documents"
  = Ok (sample_context, 100%Z, ["a.pdf"; "b.pdf"]).
Proof.
  refine (proj1 (load_documents_sorted_concat sample_listdir sample_loader
            sample_encoding sample_pages "documents" byte_encode _ _)
            (map nat_of_ascii (list_ascii_of_string sample_context)) _).
  - reflexivity.
  - intros f _. reflexivity.
  - reflexivity.
Defined.

Example load_documents_empty_directory :
  load_documents (fun _ => ["notes.txt"]) sample_loader sample_encoding
    "documents"
  = Ok ("", 0%Z, []).
Proof. reflexivity. Qed.

(* ================================================================== *)
(** * Further facts: the two tables of model_config.py *)
(* ================================================================== *)

(** X1: every identifier for which [get_model] returns a client is priced, so
    a lookup in [MODEL_PRICING] after a successful [get_model] cannot miss; an
    identifier the table does not price is refused with
    [ValueError("Unknown model: ...")]; and for a priced identifier the outcome
    of [get_model] is the outcome of one of the two constructors. *)
Theorem get_model_accepts_the_priced {client : Type}
    (getenv : string -> option string)
    (ChatOpenAI ChatAnthropic : Kwargs.t -> outcome client) (m : string) :
  ((exists c, get_model getenv ChatOpenAI ChatAnthropic m = Ok c) ->
   exists p, pricing_of m = Ok p)
  /\ (lookup m MODEL_PRICING = None ->
      get_model getenv ChatOpenAI ChatAnthropic m
      = Raise (mk_exn ValueError ("Unknown model: " ++ m)))
  /\ ((exists p, pricing_of m = Ok p) ->
      exists kwargs,
        get_model getenv ChatOpenAI ChatAnthropic m = ChatOpenAI kwargs
        \/ get_model getenv ChatOpenAI ChatAnthropic m = ChatAnthropic kwargs).
Proof.
  split; [|split].
  - intros [c Hc]. apply get_model_known, priced_iff_known in Hc.
    destruct Hc as [p Hp]. exists p. unfold pricing_of. rewrite Hp. reflexivity.
  - intros Hn. apply get_model_unknown. intros Hk.
    apply priced_iff_known in Hk. destruct Hk as [p Hp]. congruence.
  - intros [p Hp]. unfold pricing_of in Hp.
    assert (Hk : In m known_models).
    { apply priced_iff_known.
      destruct (lookup m MODEL_PRICING) as [p'|]; [eauto | discriminate]. }
    each_known_model Hk; eexists; cbn; eauto.
Qed.

Lemma get_model_accepts_the_priced_witness :
  (exists p, pricing_of "claude-sonnet-4-5-20250929" = Ok p)
  /\ get_model keyed_env sdk_ChatOpenAI sdk_ChatAnthropic "gpt-4"
     = Raise (mk_exn ValueError "Unknown model: gpt-4").
Proof.
  split.
  - refine (proj1 (get_model_accepts_the_priced keyed_env sdk_ChatOpenAI
              sdk_ChatAnthropic "claude-sonnet-4-5-20250929") _).
    eexists. reflexivity.
  - refine (proj1 (proj2 (get_model_accepts_the_priced keyed_env
              sdk_ChatOpenAI sdk_ChatAnthropic "gpt-4")) _).
    reflexivity.
Defined.

(** X2: Two identifiers for which [get_model] makes the same constructor call,
    or that have the same display name, are the same identifier: the two
    DeepSeek entries differ in the base URL and in the name shown. *)
Theorem clients_and_names_tell_models_apart (getenv : string -> option string)
    (m1 m2 : string) (c1 c2 : BuiltClient) :
  constructor_call getenv m1 = Ok c1 ->
  constructor_call getenv m2 = Ok c2 ->
  (c1 = c2 -> m1 = m2)
  /\ (display_name m1 = display_name m2 -> m1 = m2).
Proof.
  intros H1 H2. unfold constructor_call in H1, H2.
  pose proof (get_model_known _ _ _ _ _ H1) as K1.
  pose proof (get_model_known _ _ _ _ _ H2) as K2.
  each_known_model K1; each_known_model K2;
    cbn in H1; cbn in H2;
    injection H1 as <-; injection H2 as <-;
    (split; [intros E; try reflexivity; discriminate E
            | intros E; try reflexivity; vm_compute in E; discriminate E]).
Qed.

Lemma clients_and_names_tell_models_apart_witness :
  (OpenAIClient
     (Kwargs.mk "deepseek-chat" 0 None (Some "https://api.deepseek.com"))
   = OpenAIClient
       (Kwargs.mk "deepseek-chat" 0 None
          (Some "https://api.deepseek.com/v3.1_terminus_expires_on_20251015")) ->
   "deepseek-chat" = "deepseek-chat-v3.1")
  /\ (display_name "deepseek-chat" = display_name "deepseek-chat-v3.1" ->
      "deepseek-chat" = "deepseek-chat-v3.1").
Proof.
  refine (clients_and_names_tell_models_apart no_env
            "deepseek-chat" "deepseek-chat-v3.1" _ _ _ _); reflexivity.
Defined.

(** X3: [calculate_cost] looks the model up before it touches the counts: an
    unpriced identifier raises [KeyError] whatever the counts are; on a priced
    one a count that is no number raises [TypeError], the input count being
    divided first. *)
Theorem calculate_cost_errors (m : string) (i o : pyval) :
  (lookup m MODEL_PRICING = None ->
     calculate_cost m i o = Raise (mk_exn KeyError ("'" ++ m ++ "'")))
  /\ (In m known_models -> is_number i = false ->
        calculate_cost m i o
        = Raise (mk_exn TypeError
            ("unsupported operand type(s) for /: '" ++ type_name i
             ++ "' and 'int'")))
  /\ (forall q, In m known_models -> div_million i = Ok q ->
        is_number o = false ->
        calculate_cost m i o
        = Raise (mk_exn TypeError
            ("unsupported operand type(s) for /: '" ++ type_name o
             ++ "' and 'int'"))).
Proof.
  unfold calculate_cost, pricing_of. repeat split.
  - intros ->. reflexivity.
  - intros Hk Hi. apply priced_iff_known in Hk. destruct Hk as [p ->].
    destruct i; try discriminate Hi; reflexivity.
  - intros q Hk Hq Ho. apply priced_iff_known in Hk. destruct Hk as [p ->].
    cbn [bind]. rewrite Hq. cbn [bind].
    destruct o; try discriminate Ho; reflexivity.
Qed.

Lemma calculate_cost_errors_witness :
  calculate_cost "gpt-5" (PStr "12") (PInt 3)
  = Raise (mk_exn TypeError "unsupported operand type(s) for /: 'str' and 'int'").
Proof.
  refine (proj1 (proj2 (calculate_cost_errors "gpt-5" (PStr "12") (PInt 3))) _ _).
  - simpl. tauto.
  - reflexivity.
Defined.

Section BalanceFacts.

Variable getenv : string -> option string.
Variable requests_get : HttpRequest.t -> outcome HttpResponse.t.

(** X4: The balance check swallows instances of [Exception] only: an interrupt
    raised by the request leaves [check_deepseek_balance]. *)
Theorem check_deepseek_balance_lets_interrupts_through (api_key : string)
    (e : exn) :
  getenv "DEEPSEEK_API_KEY" = Some api_key -> api_key <> "" ->
  requests_get (balance_request api_key) = Raise e ->
  is_Exception e = false ->
  fst (check_deepseek_balance getenv requests_get) = Raise e.
Proof.
  intros Hkey Hne Hreq He. unfold check_deepseek_balance. rewrite Hkey.
  apply String.eqb_neq in Hne. rewrite Hne.
  fold (balance_request api_key). cbn [fst]. rewrite Hreq.
  cbn [bind except_return_None]. rewrite He. reflexivity.
Qed.

(** X5: The sidebar shows the balance details only for a truthy body: it warns
    "Could not check balance" without a credential, on a status other than
    200, on an [Exception] raised by the request or by the parsing of a 200
    answer, and also when a 200 answer parses to a falsy value such as the
    empty object. *)
Theorem balance_button_notice :
  (getenv "DEEPSEEK_API_KEY" = None \/ getenv "DEEPSEEK_API_KEY" = Some "" ->
     balance_button getenv requests_get = Ok CouldNotCheckBalance)
  /\ (forall api_key,
        getenv "DEEPSEEK_API_KEY" = Some api_key -> api_key <> "" ->
        (forall response,
           requests_get (balance_request api_key) = Ok response ->
           HttpResponse.status_code response <> 200%Z ->
           balance_button getenv requests_get = Ok CouldNotCheckBalance)
        /\ (forall e,
              requests_get (balance_request api_key) = Raise e ->
              is_Exception e = true ->
              balance_button getenv requests_get = Ok CouldNotCheckBalance)
        /\ (forall response e,
              requests_get (balance_request api_key) = Ok response ->
              HttpResponse.status_code response = 200%Z ->
              HttpResponse.json response = Raise e ->
              is_Exception e = true ->
              balance_button getenv requests_get = Ok CouldNotCheckBalance)
        /\ (forall response body,
              requests_get (balance_request api_key) = Ok response ->
              HttpResponse.status_code response = 200%Z ->
              HttpResponse.json response = Ok body ->
              balance_button getenv requests_get
              = Ok (if py_truthy body then BalanceDetails body
                    else CouldNotCheckBalance))).
Proof.
  unfold balance_button, check_deepseek_balance. split.
  - intros [-> | ->]; reflexivity.
  - intros api_key Hkey Hne. rewrite Hkey.
    apply String.eqb_neq in Hne. rewrite Hne.
    fold (balance_request api_key). cbn [fst]. repeat split.
    + intros response -> Hst. apply Z.eqb_neq in Hst.
      cbn [bind]. rewrite Hst. reflexivity.
    + intros e -> He. cbn [bind except_return_None]. rewrite He. reflexivity.
    + intros response e -> H200 Hjson He. cbn [bind].
      rewrite H200. change (Z.eqb 200 200) with true. cbv iota.
      rewrite Hjson. cbn [except_return_None]. rewrite He. reflexivity.
    + intros response body -> H200 Hjson. cbn [bind].
      rewrite H200, Hjson. reflexivity.
Qed.

End BalanceFacts.

Lemma check_deepseek_balance_lets_interrupts_through_witness :
  fst (check_deepseek_balance (fun _ => Some "sk-test")
         (fun _ => Raise (mk_exn KeyboardInterrupt "")))
  = Raise (mk_exn KeyboardInterrupt "").
Proof.
  refine (check_deepseek_balance_lets_interrupts_through
            (fun _ => Some "sk-test")
            (fun _ => Raise (mk_exn KeyboardInterrupt ""))
            "sk-test" (mk_exn KeyboardInterrupt "") _ _ _ _).
  - reflexivity.
  - discriminate.
  - reflexivity.
  - reflexivity.
Defined.

Lemma balance_button_notice_witness :
  balance_button (fun _ => Some "sk-test")
    (fun _ => Ok (HttpResponse.mk 200 (Ok (PDict []))))
  = Ok CouldNotCheckBalance.
Proof.
  refine (proj2 (proj2 (proj2 (proj2 (balance_button_notice
            (fun _ => Some "sk-test")
            (fun _ => Ok (HttpResponse.mk 200 (Ok (PDict [])))))
            "sk-test" _ _))) (HttpResponse.mk 200 (Ok (PDict []))) (PDict [])
            _ _ _).
  - reflexivity.
  - discriminate.
  - reflexivity.
  - reflexivity.
  - reflexivity.
Defined.

(* ================================================================== *)
(** * Further facts: the result record of query_handler.py *)
(* ================================================================== *)

Lemma classify_error_division (v : pyval) :
  classify_error
    ("unsupported operand type(s) for /: '" ++ type_name v ++ "' and 'int'")
  = "unsupported operand type(s) for /: '" ++ type_name v ++ "' and 'int'".
Proof. destruct v; reflexivity. Qed.

Lemma classify_error_no_get (v : pyval) :
  classify_error ("'" ++ type_name v ++ "' object has no attribute 'get'")
  = "'" ++ type_name v ++ "' object has no attribute 'get'".
Proof. destruct v; reflexivity. Qed.

Section ResultFacts.

Variable getenv : string -> option string.
Context {client : Type}.
Variables ChatOpenAI ChatAnthropic : Kwargs.t -> outcome client.
Variable invoke : client -> list Message -> outcome Response.t.
Variable time_time : nat -> PyFloat.t.

(** An exception raised while the response is read gives the handler's
    record, timed at the third clock reading. *)
Lemma query_model_read_failure (m context question : string) (c : client)
    (response : Response.t) (e : exn) :
  get_model getenv ChatOpenAI ChatAnthropic m = Ok c ->
  invoke c (messages_of context question) = Ok response ->
  query_success m response (elapsed time_time 1) = Raise e ->
  query_model getenv ChatOpenAI ChatAnthropic invoke time_time m context question
  = Ok (error_result (display_name m) (classify_error (exn_str e))
          (elapsed time_time 2)).
Proof.
  intros Hc Hinv Hs.
  destruct (proj1 (priced_iff_known m) (get_model_known getenv ChatOpenAI ChatAnthropic m c Hc))
    as [p Hp].
  pose proof (catchable_query_success m response (elapsed time_time 1)) as He.
  rewrite Hs in He. simpl in He.
  unfold query_model. rewrite Hc. cbn [bind].
  fold (messages_of context question). rewrite Hinv.
  fold (elapsed time_time 1). rewrite Hs, He.
  fold (elapsed time_time 2).
  rewrite (query_failure_priced m p e _ Hp).
  unfold display_name. rewrite Hp. reflexivity.
Qed.

(** A provider exception gives the handler's record, timed at the second
    clock reading. *)
Lemma query_model_provider_failure (m context question : string)
    (c : client) (e : exn) :
  get_model getenv ChatOpenAI ChatAnthropic m = Ok c ->
  invoke c (messages_of context question) = Raise e ->
  is_Exception e = true ->
  query_model getenv ChatOpenAI ChatAnthropic invoke time_time m context question
  = Ok (error_result (display_name m) (classify_error (exn_str e))
          (elapsed time_time 1)).
Proof.
  intros Hc Hinv He.
  destruct (proj1 (priced_iff_known m) (get_model_known getenv ChatOpenAI ChatAnthropic m c Hc))
    as [p Hp].
  unfold query_model. rewrite Hc. cbn [bind].
  fold (messages_of context question). rewrite Hinv, He.
  fold (elapsed time_time 1).
  rewrite (query_failure_priced m p e _ Hp).
  unfold display_name. rewrite Hp. reflexivity.
Qed.

(** X6: Every result names its model by the display name of the pricing table,
    on the success path and in the handler alike; and a result without error
    carries the content of the provider's response unchanged. *)
Theorem result_names_model_and_keeps_answer (m context question : string)
    (r : QueryResult.t) :
  query_model getenv ChatOpenAI ChatAnthropic invoke time_time m context question = Ok r ->
  In m known_models
  /\ QueryResult.model r = display_name m
  /\ (QueryResult.error r = None ->
      exists c response,
        get_model getenv ChatOpenAI ChatAnthropic m = Ok c
        /\ invoke c (messages_of context question) = Ok response
        /\ Response.content response = Some (QueryResult.response r)).
Proof.
  intros Hr.
  assert (Hc : exists c, get_model getenv ChatOpenAI ChatAnthropic m = Ok c).
  { unfold query_model in Hr.
    destruct (get_model getenv ChatOpenAI ChatAnthropic m) as [c|]; [eauto | discriminate]. }
  destruct Hc as [c Hc].
  split; [exact (get_model_known getenv ChatOpenAI ChatAnthropic m c Hc)|].
  destruct (query_model_cases getenv ChatOpenAI ChatAnthropic invoke time_time m context question c Hc)
    as [[response [r' [Hinv [Hs Hr']]]] | [[e He] | [e [_ [_ Hr']]]]].
  - assert (r' = r) by congruence. subst r'.
    destruct (query_success_inv _ _ _ _ Hs)
      as [i [o [cost [p [text [total [_ [_ [Hp [Ht [_ ->]]]]]]]]]]].
    cbn. unfold display_name. rewrite Hp. split; [reflexivity|].
    intros _. exists c, response. auto.
  - destruct (query_model_caught _ _ _ _ _ _ _ _ _ He) as [p [t [Hp Hr']]].
    assert (r = error_result (Pricing.name p) (classify_error (exn_str e)) t)
      by congruence.
    subst r. cbn. unfold display_name. rewrite Hp.
    split; [reflexivity | discriminate].
  - congruence.
Qed.

(** X7: The time of a result is the second clock reading less the first when the
    provider answered and the answer was read, and when the provider raised;
    when reading the answer raised, the handler reads the clock again and the
    time is the third reading less the first. *)
Theorem result_time (m context question : string) (c : client) :
  get_model getenv ChatOpenAI ChatAnthropic m = Ok c ->
  (forall response r,
     invoke c (messages_of context question) = Ok response ->
     query_success m response (elapsed time_time 1) = Ok r ->
     exists r',
       query_model getenv ChatOpenAI ChatAnthropic invoke time_time m context question = Ok r'
       /\ QueryResult.time r' = elapsed time_time 1)
  /\ (forall e,
        invoke c (messages_of context question) = Raise e ->
        is_Exception e = true ->
        exists r',
          query_model getenv ChatOpenAI ChatAnthropic invoke time_time m context question = Ok r'
          /\ QueryResult.time r' = elapsed time_time 1)
  /\ (forall response e,
        invoke c (messages_of context question) = Ok response ->
        query_success m response (elapsed time_time 1) = Raise e ->
        exists r',
          query_model getenv ChatOpenAI ChatAnthropic invoke time_time m context question = Ok r'
          /\ QueryResult.time r' = elapsed time_time 2).
Proof.
  intros Hc. repeat split.
  - intros response r Hinv Hs. exists r. split.
    + eapply query_model_success; eauto.
    + destruct (query_success_inv _ _ _ _ Hs)
        as [i [o [cost [p [text [total [_ [_ [_ [_ [_ ->]]]]]]]]]]].
      reflexivity.
  - intros e Hinv He. eexists. split.
    + eapply query_model_provider_failure; eauto.
    + reflexivity.
  - intros response e Hinv Hs. eexists. split.
    + eapply query_model_read_failure; eauto.
    + reflexivity.
Qed.

(** X8: An answer whose usage cannot be read is lost: when the response has no
    'token_usage' and its [usage_metadata] attribute is present without being
    a dict ([None] included), the result is the handler's record with the
    [AttributeError] message, zero counts and zero cost, whatever the content
    was. *)
Theorem unreadable_usage_discards_answer (m context question : string)
    (c : client) (response : Response.t) (v : pyval) :
  get_model getenv ChatOpenAI ChatAnthropic m = Ok c ->
  invoke c (messages_of context question) = Ok response ->
  no_token_usage response = true ->
  Response.usage_metadata response = Some v ->
  (forall d, v <> PDict d) ->
  query_model getenv ChatOpenAI ChatAnthropic invoke time_time m context question
  = Ok (error_result (display_name m)
          ("'" ++ type_name v ++ "' object has no attribute 'get'")
          (elapsed time_time 2)).
Proof.
  intros Hc Hinv Hno Hum Hv.
  rewrite <- classify_error_no_get.
  apply (query_model_read_failure m context question c response
           (mk_exn AttributeError
              ("'" ++ type_name v ++ "' object has no attribute 'get'")));
    auto.
  unfold query_success, extract_usage. unfold no_token_usage in Hno.
  destruct (Response.response_metadata response) as [[| | | |md]|];
    try discriminate Hno; cbn [bind py_contains].
  - destruct (lookup "token_usage" md); try discriminate Hno.
    rewrite Hum. destruct v; try reflexivity. elim (Hv d). reflexivity.
  - rewrite Hum. destruct v; try reflexivity. elim (Hv d). reflexivity.
Qed.

(** X9: An answer whose count is no number is lost too: when the usage that was
    read holds a value that is neither [int] nor [float] for the input count,
    the result is the handler's record with the [TypeError] of the division;
    likewise for the output count when the input count divides. *)
Theorem non_numeric_count_discards_answer (m context question : string)
    (c : client) (response : Response.t) (i o : pyval) :
  get_model getenv ChatOpenAI ChatAnthropic m = Ok c ->
  invoke c (messages_of context question) = Ok response ->
  extract_usage response = Ok (i, o) ->
  (is_number i = false ->
     query_model getenv ChatOpenAI ChatAnthropic invoke time_time m context question
     = Ok (error_result (display_name m)
             ("unsupported operand type(s) for /: '" ++ type_name i
              ++ "' and 'int'")
             (elapsed time_time 2)))
  /\ (forall q, div_million i = Ok q -> is_number o = false ->
        query_model getenv ChatOpenAI ChatAnthropic invoke time_time m context question
        = Ok (error_result (display_name m)
                ("unsupported operand type(s) for /: '" ++ type_name o
                 ++ "' and 'int'")
                (elapsed time_time 2))).
Proof.
  intros Hc Hinv Hu.
  pose proof (get_model_known getenv ChatOpenAI ChatAnthropic m c Hc) as Hk.
  destruct (proj1 (priced_iff_known m) Hk) as [p Hp].
  split.
  - intros Hi. rewrite <- classify_error_division.
    apply (query_model_read_failure m context question c response
             (mk_exn TypeError
                ("unsupported operand type(s) for /: '" ++ type_name i
                 ++ "' and 'int'"))); auto.
    unfold query_success. rewrite Hu. cbn [bind fst snd].
    unfold calculate_cost, pricing_of. rewrite Hp. cbn [bind].
    destruct i; try discriminate Hi; reflexivity.
  - intros q Hq Ho. rewrite <- classify_error_division.
    apply (query_model_read_failure m context question c response
             (mk_exn TypeError
                ("unsupported operand type(s) for /: '" ++ type_name o
                 ++ "' and 'int'"))); auto.
    unfold query_success. rewrite Hu. cbn [bind fst snd].
    unfold calculate_cost, pricing_of. rewrite Hp. cbn [bind].
    rewrite Hq. cbn [bind].
    destruct o; try discriminate Ho; reflexivity.
Qed.

End ResultFacts.

Lemma result_names_model_and_keeps_answer_witness :
  In "gpt-5" known_models
  /\ QueryResult.model flat_result = display_name "gpt-5"
  /\ (QueryResult.error flat_result = None ->
      exists c response,
        get_model keyed_env sdk_ChatOpenAI sdk_ChatAnthropic "gpt-5" = Ok c
        /\ answering flat_answer c (messages_of "context" "question")
           = Ok response
        /\ Response.content response
           = Some (QueryResult.response flat_result)).
Proof.
  refine (result_names_model_and_keeps_answer keyed_env sdk_ChatOpenAI sdk_ChatAnthropic (answering flat_answer)
            ticking "gpt-5" "context" "question" flat_result _).
  vm_compute. reflexivity.
Defined.

Lemma result_time_witness :
  exists r',
    query_model keyed_env sdk_ChatOpenAI sdk_ChatAnthropic (answering unmetered_answer) ticking
      "gpt-5" "context" "question" = Ok r'
    /\ QueryResult.time r' = elapsed ticking 2.
Proof.
  refine (proj2 (proj2 (result_time keyed_env sdk_ChatOpenAI sdk_ChatAnthropic (answering unmetered_answer)
            ticking "gpt-5" "context" "question" gpt5_client _))
            unmetered_answer
            (mk_exn AttributeError "'NoneType' object has no attribute 'get'")
            _ _);
    reflexivity.
Defined.

Lemma unreadable_usage_discards_answer_witness :
  query_model keyed_env sdk_ChatOpenAI sdk_ChatAnthropic (answering unmetered_answer) ticking
    "gpt-5" "context" "question"
  = Ok (error_result "GPT-5" "'NoneType' object has no attribute 'get'"
          (elapsed ticking 2)).
Proof.
  refine (unreadable_usage_discards_answer keyed_env sdk_ChatOpenAI sdk_ChatAnthropic
            (answering unmetered_answer) ticking "gpt-5" "context" "question"
            gpt5_client unmetered_answer PNone _ _ _ _ _);
    try reflexivity.
  intros d. discriminate.
Defined.

Lemma non_numeric_count_discards_answer_witness :
  query_model keyed_env sdk_ChatOpenAI sdk_ChatAnthropic (answering string_count_answer) ticking
    "gpt-5" "context" "question"
  = Ok (error_result "GPT-5"
          "unsupported operand type(s) for /: 'str' and 'int'"
          (elapsed ticking 2)).
Proof.
  refine (proj1 (non_numeric_count_discards_answer keyed_env sdk_ChatOpenAI sdk_ChatAnthropic
            (answering string_count_answer) ticking "gpt-5" "context"
            "question" gpt5_client string_count_answer (PStr "100") (PInt 50)
            _ _ _) _);
    reflexivity.
Defined.

(* ================================================================== *)
(** * Further facts: what the page shows of a result *)
(* ================================================================== *)

Lemma contains_in_empty (needle : string) :
  needle <> "" -> contains needle "" = false.
Proof. destruct needle; [congruence | reflexivity]. Qed.

(** The classified message is empty only for an empty message. *)
Lemma classify_error_empty (s : string) : classify_error s = "" <-> s = "".
Proof.
  split.
  - unfold classify_error.
    destruct (contains "402" s || contains "Insufficient Balance" s);
      [discriminate|].
    destruct (contains "401" s || contains "Unauthorized" s);
      [discriminate | auto].
  - intros ->. reflexivity.
Qed.

Section DisplayFacts.

Variable getenv : string -> option string.
Context {client : Type}.
Variables ChatOpenAI ChatAnthropic : Kwargs.t -> outcome client.
Variable invoke : client -> list Message -> outcome Response.t.
Variable time_time : nat -> PyFloat.t.

(** X10: What the expander of a failed query holds: the text "Error: " followed
    by the classified message in either case, in an error box when the message
    is not empty; an exception whose message is empty leaves an empty, falsy
    [error], and its record is written like an answer. *)
Theorem failed_query_display (m context question : string) (e : exn) :
  caught getenv ChatOpenAI ChatAnthropic invoke time_time m context question e ->
  exists r,
    query_model getenv ChatOpenAI ChatAnthropic invoke time_time m context question = Ok r
    /\ show_response r
       = if exn_str e =? ""
         then st_write (PStr "Error: ")
         else st_error ("Error: " ++ classify_error (exn_str e)).
Proof.
  intros He.
  destruct (query_model_caught _ _ _ _ _ _ _ _ _ He) as [p [t [_ Hr]]].
  eexists. split; [exact Hr|].
  unfold show_response, error_result. cbn [QueryResult.error
    QueryResult.response py_truthy].
  destruct (String.eqb_spec (exn_str e) "") as [Hs | Hs].
  - rewrite Hs. reflexivity.
  - destruct (String.eqb_spec (classify_error (exn_str e)) "") as [Hc | Hc].
    + apply (proj1 (classify_error_empty _)) in Hc. contradiction.
    + reflexivity.
Qed.

End DisplayFacts.

Lemma failed_query_display_witness :
  exists r,
    query_model keyed_env sdk_ChatOpenAI sdk_ChatAnthropic (failing (mk_exn ProviderError "")) ticking
      "gpt-5" "context" "question" = Ok r
    /\ show_response r = st_write (PStr "Error: ").
Proof.
  refine (failed_query_display keyed_env sdk_ChatOpenAI sdk_ChatAnthropic (failing (mk_exn ProviderError ""))
            ticking "gpt-5" "context" "question" (mk_exn ProviderError "") _).
  eexists. split; [reflexivity|]. left. split; reflexivity.
Defined.

(* ================================================================== *)
(** * Further facts: the dispatch loop of app.py *)
(* ================================================================== *)

Lemma select_models_known
    (use_gpt5 use_claude use_deepseek_v32 use_deepseek_v31 : bool) (m : string) :
  In m (select_models use_gpt5 use_claude use_deepseek_v32 use_deepseek_v31) ->
  In m known_models.
Proof.
  destruct use_gpt5, use_claude, use_deepseek_v32, use_deepseek_v31;
    simpl; tauto.
Qed.


Section DispatchFacts.

Variable getenv : string -> option string.
Context {client : Type}.
Variables ChatOpenAI ChatAnthropic : Kwargs.t -> outcome client.
Variable invoke : client -> list Message -> outcome Response.t.
Variable clock : nat -> nat -> PyFloat.t.
Variables context question : string.

(** The provider raises nothing but instances of [Exception] on the messages
    of this question. *)
Hypothesis provider_raises_exceptions :
  forall c e,
    invoke c (messages_of context question) = Raise e -> is_Exception e = true.

Lemma query_model_returns (time_time : nat -> PyFloat.t) (m : string) :
  (exists c, get_model getenv ChatOpenAI ChatAnthropic m = Ok c) ->
  exists r,
    query_model getenv ChatOpenAI ChatAnthropic invoke time_time m context
      question = Ok r.
Proof.
  intros [c Hc].
  destruct (query_model_cases getenv ChatOpenAI ChatAnthropic invoke time_time
              m context question c Hc)
    as [[response [r [_ [_ H]]]] | [[e He] | [e [Hinv [He _]]]]].
  - eauto.
  - destruct (query_model_caught _ _ _ _ _ _ _ _ _ He) as [p [t [_ H]]]. eauto.
  - rewrite (provider_raises_exceptions c e Hinv) in He. discriminate.
Qed.

Lemma query_each_returns (models : list string) :
  (forall m, In m models -> exists c, get_model getenv ChatOpenAI ChatAnthropic m = Ok c) ->
  forall call results,
  exists rs,
    query_each getenv ChatOpenAI ChatAnthropic invoke clock call models context question results
    = Ok (results ++ rs)%list
    /\ Forall2
         (fun km r =>
            query_model getenv ChatOpenAI ChatAnthropic invoke (clock (fst km)) (snd km) context
              question = Ok r)
         (combine (seq call (List.length models)) models) rs.
Proof.
  induction models as [|m rest IH]; intros Hk call results.
  - exists []. cbn. rewrite app_nil_r. split; [reflexivity | constructor].
  - destruct (query_model_returns (clock call) m (Hk m (or_introl eq_refl)))
      as [r Hr].
    destruct (IH (fun g Hg => Hk g (or_intror Hg)) (S call)
                (results ++ [r])%list) as [rs [Hrs Hall]].
    exists (r :: rs). cbn [query_each]. rewrite Hr. cbn [bind].
    rewrite Hrs, <- app_assoc. split; [reflexivity|].
    cbn. constructor; [exact Hr | exact Hall].
Qed.

(** The loop stops at the first model whose client cannot be built. *)
Lemma query_each_aborts (before : list string) (m : string)
    (after : list string) (e : exn) :
  (forall g, In g before -> exists c, get_model getenv ChatOpenAI ChatAnthropic g = Ok c) ->
  get_model getenv ChatOpenAI ChatAnthropic m = Raise e ->
  forall call results,
    query_each getenv ChatOpenAI ChatAnthropic invoke clock call
      (before ++ m :: after)%list context question results
    = Raise e.
Proof.
  intros Hb Hm. induction before as [|g rest IH]; intros call results.
  - cbn [app query_each]. unfold query_model. rewrite Hm. reflexivity.
  - destruct (query_model_returns (clock call) g (Hb g (or_introl eq_refl)))
      as [r Hr].
    cbn [app query_each]. rewrite Hr. cbn [bind].
    apply IH. intros h Hh. apply Hb. right. exact Hh.
Qed.

End DispatchFacts.

Lemma query_model_names_result (getenv : string -> option string)
    {client : Type} (ChatOpenAI ChatAnthropic : Kwargs.t -> outcome client)
    (invoke : client -> list Message -> outcome Response.t)
    (time_time : nat -> PyFloat.t) (m context question : string)
    (r : QueryResult.t) :
  query_model getenv ChatOpenAI ChatAnthropic invoke time_time m context question = Ok r ->
  QueryResult.model r = display_name m.
Proof.
  intros Hr.
  assert (Hc : exists c, get_model getenv ChatOpenAI ChatAnthropic m = Ok c).
  { unfold query_model in Hr.
    destruct (get_model getenv ChatOpenAI ChatAnthropic m) as [c|]; [eauto | discriminate]. }
  destruct Hc as [c Hc].
  destruct (query_model_cases getenv ChatOpenAI ChatAnthropic invoke time_time m context question c Hc)
    as [[response [r' [_ [Hs Hr']]]] | [[e He] | [e [_ [_ Hr']]]]].
  - assert (r' = r) by congruence. subst r'.
    destruct (query_success_inv _ _ _ _ Hs)
      as [i [o [cost [p [text [total [_ [_ [Hp [_ [_ ->]]]]]]]]]]].
    unfold display_name. rewrite Hp. reflexivity.
  - destruct (query_model_caught _ _ _ _ _ _ _ _ _ He) as [p [t [Hp Hr']]].
    assert (r = error_result (Pricing.name p) (classify_error (exn_str e)) t)
      by congruence.
    subst r. unfold display_name. rewrite Hp. reflexivity.
  - congruence.
Qed.

(** X12: The "Query Models" button: without a question it asks for one and
    without a ticked box it asks for a model; otherwise, the client of every
    ticked model being built and the provider raising nothing but instances
    of [Exception], it stores one result per ticked model, in the order of the
    boxes, each being what [query_model] returns for that model on its own and
    named by that model's display name: a failing model leaves its error
    record and the others are queried all the same.  A ticked model whose
    client cannot be built, those before it being built, ends the click with
    the constructor's exception, and nothing is stored. *)
Theorem query_button_outcomes (getenv : string -> option string)
    {client : Type} (ChatOpenAI ChatAnthropic : Kwargs.t -> outcome client)
    (invoke : client -> list Message -> outcome Response.t)
    (clock : nat -> nat -> PyFloat.t)
    (use_gpt5 use_claude use_deepseek_v32 use_deepseek_v31 : bool)
    (context question : string) :
  let selected :=
    select_models use_gpt5 use_claude use_deepseek_v32 use_deepseek_v31 in
  let click :=
    query_button getenv ChatOpenAI ChatAnthropic invoke clock
      use_gpt5 use_claude use_deepseek_v32 use_deepseek_v31 context question in
  (question = "" -> click = Ok PleaseEnterQuestion)
  /\ (question <> "" -> selected = [] -> click = Ok PleaseSelectModel)
  /\ (question <> "" -> selected <> [] ->
      (forall m, In m selected -> exists c, get_model getenv ChatOpenAI ChatAnthropic m = Ok c) ->
      (forall c e,
         invoke c (messages_of context question) = Raise e ->
         is_Exception e = true) ->
      exists results,
        click = Ok (Stored results question)
        /\ List.length results = List.length selected
        /\ map QueryResult.model results = map display_name selected
        /\ Forall2
             (fun km r =>
                query_model getenv ChatOpenAI ChatAnthropic invoke (clock (fst km)) (snd km) context
                  question = Ok r)
             (combine (seq 0 (List.length selected)) selected) results)
  /\ (question <> "" ->
      forall before m after e,
        selected = (before ++ m :: after)%list ->
        (forall g, In g before -> exists c, get_model getenv ChatOpenAI ChatAnthropic g = Ok c) ->
        get_model getenv ChatOpenAI ChatAnthropic m = Raise e ->
        (forall c e',
           invoke c (messages_of context question) = Raise e' ->
           is_Exception e' = true) ->
        click = Raise e).
Proof.
  intros selected click. subst click. unfold query_button. fold selected.
  cbn [py_truthy]. split; [|split; [|split]].
  - intros ->. reflexivity.
  - intros Hq Hs. apply String.eqb_neq in Hq. rewrite Hq, Hs. reflexivity.
  - intros Hq Hs Hk Hprov. apply String.eqb_neq in Hq. rewrite Hq. cbn [negb].
    destruct (query_each_returns getenv ChatOpenAI ChatAnthropic invoke clock context question Hprov
                selected Hk 0%nat []) as [rs [Hrs Hall]].
    destruct selected as [|m0 rest] eqn:Hsel; [congruence|].
    rewrite Hrs. cbn [bind app].
    exists rs. split; [reflexivity|].
    assert (Hlen : List.length rs = List.length (m0 :: rest)).
    { apply Forall2_length in Hall.
      rewrite length_combine, length_seq, Nat.min_id in Hall. auto. }
    split; [exact Hlen|]. split; [|exact Hall].
    clear Hrs Hsel Hk Hs Hlen. revert Hall.
    generalize 0%nat. generalize (m0 :: rest). intros models.
    revert rs. induction models as [|m ms IH]; intros rs k Hall.
    + inversion Hall. reflexivity.
    + cbn in Hall. inversion Hall as [|km r kms rs' Hr Hrest]; subst.
      cbn [map]. f_equal.
      * eapply query_model_names_result. exact Hr.
      * eapply IH. exact Hrest.
  - intros Hq before m after e Hsel Hb Hm Hprov.
    apply String.eqb_neq in Hq. rewrite Hq. cbn [negb].
    rewrite Hsel.
    rewrite (query_each_aborts getenv ChatOpenAI ChatAnthropic invoke clock
               context question Hprov before m after e Hb Hm 0%nat []).
    destruct before; reflexivity.
Qed.

(* ================================================================== *)
(** * Further facts: the key findings of app.py *)
(* ================================================================== *)

Ltac compare_cases :=
  repeat match goal with
         | |- context [Z.compare ?a ?b] => destruct (Z.compare_spec a b)
         | |- context [Pos.compare_cont Eq ?a ?b] =>
             change (Pos.compare_cont Eq a b) with (Pos.compare a b);
             destruct (Pos.compare_spec a b)
         end.

Lemma SFltb_irrefl (x : spec_float) : SFltb x x = false.
Proof.
  unfold SFltb. destruct x as [s|s| |s m e]; try destruct s;
    cbn [SFcompare]; try reflexivity;
    compare_cases; simpl; try reflexivity; lia.
Qed.

Lemma SFltb_trans (x y z : spec_float) :
  SFltb x y = true -> SFltb y z = true -> SFltb x z = true.
Proof.
  unfold SFltb.
  destruct x as [sx|sx| |sx mx ex]; destruct y as [sy|sy| |sy my ey];
    destruct z as [sz|sz| |sz mz ez];
    try destruct sx; try destruct sy; try destruct sz;
    cbn [SFcompare]; try discriminate; try reflexivity;
    compare_cases; simpl; intros; try discriminate; try reflexivity;
    subst; lia.
Qed.

Lemma min_scan_app {A} (key : A -> pyval) (l1 l2 : list A) (best : A) :
  min_scan key best (l1 ++ l2)%list
  = bind (min_scan key best l1) (fun b => min_scan key b l2).
Proof.
  revert best. induction l1 as [|x l1 IH]; intros best; cbn [min_scan app bind].
  - reflexivity.
  - destruct (py_lt (key x) (key best)) as [smaller|e]; cbn [bind];
      [apply IH | reflexivity].
Qed.

Lemma py_lt_number (a b : pyval) :
  is_number a = true -> is_number b = true -> exists c, py_lt a b = Ok c.
Proof. destruct a, b; try discriminate; intros _ _; eexists; reflexivity. Qed.

Lemma py_lt_zero_positive (f : PyFloat.t) :
  SFltb PyFloat.zero f = true ->
  py_lt (PInt 0) (PFloat f) = Ok true /\ py_lt (PFloat f) (PInt 0) = Ok false.
Proof.
  destruct f as [s|[]| |[] m e]; try discriminate; intros _;
    cbn [py_lt compare_int_float]; try (split; reflexivity).
  destruct (Z.leb 0 e) eqn:He.
  - apply Z.leb_le in He.
    assert (H : (0 < Z.pos m * 2 ^ e)%Z)
      by (apply Z.mul_pos_pos; [lia | apply Z.pow_pos_nonneg; lia]).
    apply Z.compare_lt_iff in H. rewrite H. split; reflexivity.
  - split; reflexivity.
Qed.

(** A scan over results whose costs are numbers ends on one of them. *)
Lemma min_scan_numbers {A} (key : A -> pyval) (items : list A) :
  Forall (fun x => is_number (key x) = true) items ->
  forall best, is_number (key best) = true ->
  exists r, min_scan key best items = Ok r /\ In r (best :: items).
Proof.
  induction 1 as [|x rest Hx _ IH]; intros best Hb; cbn [min_scan].
  - exists best. split; [reflexivity | left; reflexivity].
  - destruct (py_lt_number _ _ Hx Hb) as [c ->]. cbn [bind].
    destruct (IH (if c then x else best)) as [r [Hr Hin]].
    { destruct c; assumption. }
    exists r. split; [exact Hr|].
    destruct Hin as [<- | Hin]; [|right; right; exact Hin].
    destruct c; [right; left | left]; reflexivity.
Qed.

(** A scan by time ends on a result that none of those seen beats, given
    that none of the earlier ones beats the result held at the start. *)
Lemma min_scan_time (items seen : list QueryResult.t) (best : QueryResult.t) :
  (forall x, In x seen ->
     SFltb (QueryResult.time x) (QueryResult.time best) = false) ->
  exists r,
    min_scan time_key best items = Ok r
    /\ In r (best :: items)
    /\ (forall x, In x (seen ++ best :: items)%list ->
          SFltb (QueryResult.time x) (QueryResult.time r) = false).
Proof.
  revert seen best. induction items as [|item rest IH]; intros seen best Hseen.
  - exists best. split; [reflexivity|]. split; [left; reflexivity|].
    intros x Hx. apply in_app_or in Hx. destruct Hx as [Hx | [<- | []]].
    + apply Hseen, Hx.
    + apply SFltb_irrefl.
  - cbn [min_scan time_key py_lt bind].
    destruct (SFltb (QueryResult.time item) (QueryResult.time best)) eqn:Hlt.
    + destruct (IH (seen ++ [best])%list item) as [r [Hr [Hin Hall]]].
      { intros x Hx. apply in_app_or in Hx.
        destruct Hx as [Hx | [<- | []]].
        - destruct (SFltb (QueryResult.time x) (QueryResult.time item)) eqn:H;
            [|reflexivity].
          pose proof (Hseen x Hx) as Hsx.
          rewrite (SFltb_trans _ _ _ H Hlt) in Hsx. discriminate.
        - destruct (SFltb (QueryResult.time best) (QueryResult.time item)) eqn:H;
            [|reflexivity].
          pose proof (SFltb_trans _ _ _ Hlt H) as Hii.
          rewrite SFltb_irrefl in Hii. discriminate. }
      exists r. split; [exact Hr|]. split; [right; exact Hin|].
      intros x Hx. apply Hall. rewrite <- app_assoc. exact Hx.
    + destruct (IH (seen ++ [item])%list best) as [r [Hr [Hin Hall]]].
      { intros x Hx. apply in_app_or in Hx.
        destruct Hx as [Hx | [<- | []]]; [apply Hseen, Hx | exact Hlt]. }
      exists r. split; [exact Hr|]. split.
      * destruct Hin as [<- | Hin]; [left; reflexivity | right; right; exact Hin].
      * intros x Hx. apply Hall.
        apply in_app_or in Hx. apply in_or_app.
        destruct Hx as [Hx | [<- | [<- | Hx]]].
        -- left. apply in_or_app. left. exact Hx.
        -- right. left. reflexivity.
        -- left. apply in_or_app. right. left. reflexivity.
        -- right. right. exact Hx.
Qed.

Lemma min_scan_positive_costs (items : list QueryResult.t) :
  Forall (fun r => cost_positive r = true) items ->
  forall best, cost_positive best = true ->
  exists b, min_scan QueryResult.cost best items = Ok b
            /\ cost_positive b = true.
Proof.
  induction 1 as [|x rest Hx _ IH]; intros best Hb; cbn [min_scan].
  - eauto.
  - unfold cost_positive in Hx, Hb.
    destruct (QueryResult.cost x) as [| |fx| |] eqn:Ex; try discriminate.
    destruct (QueryResult.cost best) as [| |fb| |] eqn:Eb; try discriminate.
    cbn [py_lt bind].
    apply IH. unfold cost_positive.
    destruct (SFltb fx fb); [rewrite Ex | rewrite Eb]; assumption.
Qed.

Lemma min_scan_keeps_free_result (failed : QueryResult.t)
    (items : list QueryResult.t) :
  QueryResult.cost failed = PInt 0 ->
  Forall (fun r => cost_positive r = true \/ QueryResult.cost r = PInt 0)
    items ->
  min_scan QueryResult.cost failed items = Ok failed.
Proof.
  intros Hf. induction 1 as [|x rest Hx _ IH]; cbn [min_scan].
  - reflexivity.
  - rewrite Hf. destruct Hx as [Hx | Hx].
    + unfold cost_positive in Hx.
      destruct (QueryResult.cost x) as [| |fx| |]; try discriminate.
      rewrite (proj2 (py_lt_zero_positive fx Hx)). cbn [bind].
      exact IH.
    + rewrite Hx. cbn [py_lt bind Z.ltb Z.compare].
      exact IH.
Qed.

(** X13: "Most Cost-Effective" goes to a failed query: the handler's record costs
    the integer 0, so among results whose other costs are zero or above, the
    first record of cost 0 that every earlier result costs more than is the
    one named cheapest. *)
Theorem failed_query_is_most_cost_effective
    (earlier later : list QueryResult.t) (failed : QueryResult.t) :
  QueryResult.cost failed = PInt 0 ->
  Forall (fun r => cost_positive r = true) earlier ->
  Forall (fun r => cost_positive r = true \/ QueryResult.cost r = PInt 0)
    later ->
  (1 <= List.length earlier + List.length later)%nat ->
  exists fastest,
    key_findings (earlier ++ failed :: later)
    = Ok (Some (failed, fastest)).
Proof.
  intros Hf Hearlier Hlater Hlen.
  assert (Hcheap : py_min QueryResult.cost (earlier ++ failed :: later)
                   = Ok failed).
  { destruct Hearlier as [|first rest Hfirst Hrest]; cbn [app py_min].
    - apply min_scan_keeps_free_result; assumption.
    - rewrite min_scan_app.
      destruct (min_scan_positive_costs rest Hrest first Hfirst)
        as [b [-> Hb]].
      cbn [bind min_scan]. rewrite Hf.
      unfold cost_positive in Hb.
      destruct (QueryResult.cost b) as [| |fb| |]; try discriminate.
      rewrite (proj1 (py_lt_zero_positive fb Hb)). cbn [bind].
      apply min_scan_keeps_free_result; assumption. }
  unfold key_findings.
  assert (Hlong : Nat.ltb 1 (List.length (earlier ++ failed :: later)) = true).
  { apply Nat.ltb_lt. rewrite length_app. cbn [List.length]. lia. }
  rewrite Hlong, Hcheap. cbn [bind].
  destruct (earlier ++ failed :: later)%list as [|first rest] eqn:E.
  - destruct earlier; discriminate.
  - cbn [py_min]. change (fun x => PFloat (QueryResult.time x)) with time_key.
    destruct (min_scan_time rest [] first) as [r [-> _]].
    + intros x [].
    + exists r. reflexivity.
Qed.

Lemma key_findings_of_numbers (results : list QueryResult.t) :
  (2 <= List.length results)%nat ->
  Forall (fun r => is_number (QueryResult.cost r) = true) results ->
  exists cheapest fastest,
    key_findings results = Ok (Some (cheapest, fastest))
    /\ In cheapest results
    /\ In fastest results
    /\ forall r, In r results ->
         SFltb (QueryResult.time r) (QueryResult.time fastest) = false.
Proof.
  unfold key_findings. intros Hlen Hnum.
  assert (Hlong : Nat.ltb 1 (List.length results) = true)
    by (apply Nat.ltb_lt; lia).
  rewrite Hlong.
  destruct results as [|first rest]; [cbn in Hlen; lia|].
  cbn [py_min]. inversion Hnum as [|? ? Hfirst Hrest]; subst.
  destruct (min_scan_numbers QueryResult.cost rest Hrest first Hfirst)
    as [cheapest [-> Hcin]].
  destruct (min_scan_time rest [] first) as [fastest [Hf [Hfin Hall]]].
  { intros x []. }
  change (fun x => PFloat (QueryResult.time x)) with time_key.
  rewrite Hf. cbn [bind].
  exists cheapest, fastest. repeat split; assumption.
Qed.

(** X14: The key findings appear for two results or more.  When every cost is a
    number they name two of the results, and no result has a time strictly
    below that of the one named fastest. *)
Theorem key_findings_fastest (results : list QueryResult.t) :
  ((List.length results <= 1)%nat -> key_findings results = Ok None)
  /\ ((2 <= List.length results)%nat ->
      Forall (fun r => is_number (QueryResult.cost r) = true) results ->
      exists cheapest fastest,
        key_findings results = Ok (Some (cheapest, fastest))
        /\ In cheapest results
        /\ In fastest results
        /\ forall r, In r results ->
             SFltb (QueryResult.time r) (QueryResult.time fastest) = false).
Proof.
  split.
  - intros Hlen. unfold key_findings. apply Nat.ltb_ge in Hlen.
    rewrite Hlen. reflexivity.
  - apply key_findings_of_numbers.
Qed.

Lemma query_model_result_shape (getenv : string -> option string)
    {client : Type} (ChatOpenAI ChatAnthropic : Kwargs.t -> outcome client)
    (invoke : client -> list Message -> outcome Response.t)
    (time_time : nat -> PyFloat.t) (m context question : string)
    (r : QueryResult.t) :
  query_model getenv ChatOpenAI ChatAnthropic invoke time_time m context question = Ok r ->
  (exists cost,
     QueryResult.error r = None
     /\ calculate_cost m (QueryResult.input_tokens r)
          (QueryResult.output_tokens r) = Ok cost
     /\ QueryResult.cost r = PFloat cost)
  \/ (exists msg, QueryResult.error r = Some msg
                  /\ QueryResult.cost r = PInt 0).
Proof.
  intros Hr.
  assert (Hc : exists c, get_model getenv ChatOpenAI ChatAnthropic m = Ok c).
  { unfold query_model in Hr.
    destruct (get_model getenv ChatOpenAI ChatAnthropic m) as [c|]; [eauto | discriminate]. }
  destruct Hc as [c Hc].
  destruct (query_model_cases getenv ChatOpenAI ChatAnthropic invoke time_time m context question c Hc)
    as [[response [r' [_ [Hs Hr']]]] | [[e He] | [e [_ [_ Hr']]]]].
  - assert (r' = r) by congruence. subst r'.
    destruct (query_success_inv _ _ _ _ Hs)
      as [i [o [cost [p [text [total [_ [Hcost [_ [_ [_ ->]]]]]]]]]]].
    left. exists cost. repeat split. exact Hcost.
  - destruct (query_model_caught _ _ _ _ _ _ _ _ _ He) as [p [t [_ Hr']]].
    assert (r = error_result (Pricing.name p) (classify_error (exn_str e)) t)
      by congruence.
    subst r. right. eexists. split; reflexivity.
  - congruence.
Qed.

(** X20: The cost of a result without error is [calculate_cost] of the very counts
    the result reports; a result with an error costs the integer 0. *)
Theorem result_cost_matches_its_counts (getenv : string -> option string)
    {client : Type} (ChatOpenAI ChatAnthropic : Kwargs.t -> outcome client)
    (invoke : client -> list Message -> outcome Response.t)
    (time_time : nat -> PyFloat.t) (m context question : string)
    (r : QueryResult.t) :
  query_model getenv ChatOpenAI ChatAnthropic invoke time_time m context question = Ok r ->
  (QueryResult.error r = None ->
     exists cost,
       calculate_cost m (QueryResult.input_tokens r)
         (QueryResult.output_tokens r) = Ok cost
       /\ QueryResult.cost r = PFloat cost)
  /\ (QueryResult.error r <> None -> QueryResult.cost r = PInt 0).
Proof.
  intros Hr.
  destruct (query_model_result_shape _ _ _ _ _ _ _ _ _ Hr)
    as [[cost [He [Hc Hcost]]] | [msg [He Hcost]]]; split.
  - intros _. eauto.
  - intros H. elim H. exact He.
  - intros H. congruence.
  - intros _. exact Hcost.
Qed.

Lemma result_cost_matches_its_counts_witness :
  (QueryResult.error flat_result = None ->
     exists cost,
       calculate_cost "gpt-5" (QueryResult.input_tokens flat_result)
         (QueryResult.output_tokens flat_result) = Ok cost
       /\ QueryResult.cost flat_result = PFloat cost)
  /\ (QueryResult.error flat_result <> None ->
      QueryResult.cost flat_result = PInt 0).
Proof.
  refine (result_cost_matches_its_counts keyed_env sdk_ChatOpenAI sdk_ChatAnthropic (answering flat_answer)
            ticking "gpt-5" "context" "question" flat_result _).
  vm_compute. reflexivity.
Defined.

Section ClickFacts.

Variable getenv : string -> option string.
Context {client : Type}.
Variables ChatOpenAI ChatAnthropic : Kwargs.t -> outcome client.
Variable invoke : client -> list Message -> outcome Response.t.
Variable clock : nat -> nat -> PyFloat.t.
Variables context question : string.

Lemma query_each_numbers (models : list string) :
  forall call results stored,
    Forall (fun r => is_number (QueryResult.cost r) = true) results ->
    query_each getenv ChatOpenAI ChatAnthropic invoke clock call models context question results
    = Ok stored ->
    Forall (fun r => is_number (QueryResult.cost r) = true) stored.
Proof.
  induction models as [|m rest IH]; intros call results stored Hres H;
    cbn [query_each] in H.
  - injection H as <-. exact Hres.
  - destruct (query_model getenv ChatOpenAI ChatAnthropic invoke (clock call) m context question)
      as [r|] eqn:Hr; [|discriminate].
    cbn [bind] in H. apply (IH _ _ _) in H; [exact H|].
    apply Forall_app. split; [exact Hres|]. constructor; [|constructor].
    destruct (query_model_result_shape _ _ _ _ _ _ _ _ _ Hr)
      as [[cost [_ [_ ->]]] | [msg [_ ->]]]; reflexivity.
Qed.

(** X21: The key findings cannot fail on what a click stored: every stored cost is
    a float or the integer 0, so with two results or more the two [min] calls
    return two of the stored results and raise no [TypeError]. *)
Theorem key_findings_after_click
    (use_gpt5 use_claude use_deepseek_v32 use_deepseek_v31 : bool)
    (results : list QueryResult.t) (stored_question : string) :
  query_button getenv ChatOpenAI ChatAnthropic invoke clock
    use_gpt5 use_claude use_deepseek_v32 use_deepseek_v31 context question
  = Ok (Stored results stored_question) ->
  (2 <= List.length results)%nat ->
  exists cheapest fastest,
    key_findings results = Ok (Some (cheapest, fastest))
    /\ In cheapest results /\ In fastest results.
Proof.
  unfold query_button. intros H Hlen.
  destruct (negb (py_truthy (PStr question))); [discriminate|].
  destruct (select_models use_gpt5 use_claude use_deepseek_v32
              use_deepseek_v31) as [|m0 rest]; [discriminate|].
  destruct (query_each getenv ChatOpenAI ChatAnthropic invoke clock 0 (m0 :: rest) context question [])
    as [stored|] eqn:Hq; [|discriminate].
  cbn [bind] in H. injection H as <- _.
  apply query_each_numbers in Hq; [|constructor].
  destruct (key_findings_of_numbers stored Hlen Hq)
    as [cheapest [fastest [Hk [Hc [Hf _]]]]].
  exists cheapest, fastest. auto.
Qed.

End ClickFacts.

(* ================================================================== *)
(** * Further facts: document_loader.py *)
(* ================================================================== *)

Lemma prefix_append (a b : string) : String.prefix a (a ++ b) = true.
Proof.
  induction a as [|x a IH]; cbn [String.prefix append].
  - destruct b; reflexivity.
  - destruct (ascii_dec x x) as [_|H]; [exact IH | elim H; reflexivity].
Qed.

Lemma prefix_split (a b : string) :
  String.prefix a b = true -> exists c, b = a ++ c.
Proof.
  revert b. induction a as [|x a IH]; intros b H.
  - exists b. reflexivity.
  - destruct b as [|y b]; [discriminate|]. cbn [String.prefix] in H.
    destruct (ascii_dec x y) as [->|_]; [|discriminate].
    destruct (IH b H) as [c ->]. exists c. reflexivity.
Qed.

Lemma contains_prefixed (needle rest : string) :
  contains needle (needle ++ rest) = true.
Proof.
  destruct (needle ++ rest) eqn:E; cbn [contains];
    rewrite <- E, prefix_append; reflexivity.
Qed.

Lemma contains_after (needle before s : string) :
  contains needle s = true -> contains needle (before ++ s) = true.
Proof.
  intros H. induction before as [|x before IH]; cbn [append]; [exact H|].
  cbn [contains]. rewrite IH. apply orb_true_r.
Qed.

Lemma rev_string_acc_append (a b acc : string) :
  rev_string_acc (a ++ b) acc = rev_string_acc b (rev_string_acc a acc).
Proof.
  revert acc. induction a as [|x a IH]; intros acc; cbn; [reflexivity | apply IH].
Qed.

Lemma rev_string_acc_acc (s acc : string) :
  rev_string_acc s acc = rev_string_acc s "" ++ acc.
Proof.
  revert acc. induction s as [|x s IH]; intros acc; cbn [rev_string_acc].
  - reflexivity.
  - rewrite (IH (String x acc)), (IH (String x "")).
    rewrite string_append_assoc. reflexivity.
Qed.

Lemma rev_string_acc_involutive (s : string) :
  rev_string_acc (rev_string_acc s "") "" = s.
Proof.
  induction s as [|x s IH]; cbn [rev_string_acc]; [reflexivity|].
  rewrite (rev_string_acc_acc s (String x "")), rev_string_acc_append.
  rewrite IH. reflexivity.
Qed.

Lemma ends_with_split (suffix s : string) :
  ends_with suffix s = true <-> exists stem, s = stem ++ suffix.
Proof.
  unfold ends_with. split.
  - intros H. apply prefix_split in H. destruct H as [c Hc].
    exists (rev_string_acc c "").
    rewrite <- (rev_string_acc_involutive s), Hc, rev_string_acc_append.
    rewrite rev_string_acc_involutive.
    rewrite (rev_string_acc_acc c suffix). reflexivity.
  - intros [stem ->]. rewrite rev_string_acc_append.
    rewrite (rev_string_acc_acc suffix (rev_string_acc stem "")).
    apply prefix_append.
Qed.

Lemma Permutation_filter_both {A} (f : A -> bool) (l l' : list A) :
  Permutation l l' -> Permutation (filter f l) (filter f l').
Proof.
  induction 1 as [|x l l' _ IH|x y l|l l' l'' _ IH1 _ IH2]; cbn [filter].
  - constructor.
  - destruct (f x); [constructor|]; exact IH.
  - destruct (f x), (f y); try reflexivity. constructor.
  - etransitivity; eassumption.
Qed.

Lemma ascii_compare_lt_trans (a b c : ascii) :
  Ascii.compare a b = Lt -> Ascii.compare b c = Lt -> Ascii.compare a c = Lt.
Proof.
  unfold Ascii.compare. rewrite !N.compare_lt_iff. apply N.lt_trans.
Qed.

Lemma ascii_compare_refl (a : ascii) : Ascii.compare a a = Eq.
Proof. unfold Ascii.compare. apply N.compare_refl. Qed.

Lemma string_compare_refl (s : string) : String.compare s s = Eq.
Proof.
  induction s as [|x s IH]; cbn [String.compare]; [reflexivity|].
  rewrite ascii_compare_refl. exact IH.
Qed.

Lemma string_compare_lt_trans (a b c : string) :
  String.compare a b = Lt -> String.compare b c = Lt -> String.compare a c = Lt.
Proof.
  revert b c. induction a as [|x a IH]; intros [|y b] [|z c];
    cbn [String.compare]; try discriminate; try reflexivity.
  destruct (Ascii.compare x y) eqn:Exy; try discriminate;
    destruct (Ascii.compare y z) eqn:Eyz; try discriminate; intros Hab Hbc.
  - apply Ascii.compare_eq_iff in Exy, Eyz. subst.
    rewrite ascii_compare_refl. eapply IH; eassumption.
  - apply Ascii.compare_eq_iff in Exy. subst. rewrite Eyz. reflexivity.
  - apply Ascii.compare_eq_iff in Eyz. subst. rewrite Exy. reflexivity.
  - rewrite (ascii_compare_lt_trans _ _ _ Exy Eyz). reflexivity.
Qed.

Lemma string_leb_trans (a b c : string) :
  String.leb a b = true -> String.leb b c = true -> String.leb a c = true.
Proof.
  unfold String.leb.
  destruct (String.compare a b) eqn:Eab; try discriminate;
    destruct (String.compare b c) eqn:Ebc; try discriminate; intros _ _.
  - apply String.compare_eq_iff in Eab, Ebc. subst.
    rewrite string_compare_refl. reflexivity.
  - apply String.compare_eq_iff in Eab. subst. rewrite Ebc. reflexivity.
  - apply String.compare_eq_iff in Ebc. subst. rewrite Eab. reflexivity.
  - rewrite (string_compare_lt_trans _ _ _ Eab Ebc). reflexivity.
Qed.

Lemma strongly_sorted_sort (l : list string) :
  StronglySorted filename_le (sorted l).
Proof.
  apply (StringSort.StronglySorted_sort l).
  intros a b c. apply string_leb_trans.
Qed.

(** Two sorted lists of the same names are the same list. *)
Lemma sorted_unique (l1 l2 : list string) :
  StronglySorted filename_le l1 -> StronglySorted filename_le l2 ->
  Permutation l1 l2 -> l1 = l2.
Proof.
  revert l2. induction l1 as [|a l1 IH]; intros l2 H1 H2 Hp.
  - apply Permutation_nil in Hp. auto.
  - destruct l2 as [|b l2].
    { apply Permutation_sym, Permutation_nil in Hp. discriminate. }
    apply StronglySorted_inv in H1, H2.
    destruct H1 as [H1 Ha], H2 as [H2 Hb].
    assert (a = b) as <-.
    { assert (Hab : In a (b :: l2))
        by (eapply Permutation_in; [exact Hp | left; reflexivity]).
      assert (Hba : In b (a :: l1))
        by (eapply Permutation_in; [symmetry; exact Hp | left; reflexivity]).
      destruct Hab as [-> | Hab]; [reflexivity|].
      destruct Hba as [-> | Hba]; [reflexivity|].
      rewrite Forall_forall in Ha, Hb.
      apply String.leb_antisym; [apply Ha, Hba | apply Hb, Hab]. }
    f_equal. apply IH; auto. eapply Permutation_cons_inv. exact Hp.
Qed.

Lemma sorted_permutation (l l' : list string) :
  Permutation l l' -> sorted l = sorted l'.
Proof.
  intros Hp. apply sorted_unique; try apply strongly_sorted_sort.
  transitivity l; [symmetry; apply StringSort.Permuted_sort|].
  transitivity l'; [exact Hp | apply StringSort.Permuted_sort].
Qed.

Lemma context_of_app (pages_of : string -> list string) (l1 l2 : list string) :
  context_of pages_of (l1 ++ l2)%list
  = context_of pages_of l1 ++ context_of pages_of l2.
Proof.
  induction l1 as [|f l1 IH]; cbn [app context_of fold_right]; [reflexivity|].
  fold (context_of pages_of (l1 ++ l2)%list). rewrite IH.
  fold (context_of pages_of l1).
  rewrite string_append_assoc. reflexivity.
Qed.

Section LoaderFacts.

Variable listdir : string -> list string.
Variable PyPDFLoader_load : string -> outcome (list string).
Variable encoding_for_model : string -> outcome (string -> outcome (list nat)).
Variable documents_dir : string.

Lemma load_loop_inv (files : list string) :
  forall all_text document_names loaded,
    load_loop PyPDFLoader_load documents_dir files all_text document_names
    = Ok loaded ->
    forall f, In f files ->
      PyPDFLoader_load (path_str documents_dir f)
      = Ok (loaded_pages PyPDFLoader_load documents_dir f).
Proof.
  induction files as [|g rest IH]; intros all_text names loaded H f Hf.
  - destruct Hf.
  - cbn [load_loop] in H.
    destruct (PyPDFLoader_load (path_str documents_dir g)) as [pages|e] eqn:Hg;
      [|discriminate].
    cbn [bind] in H. destruct Hf as [<- | Hf].
    + unfold loaded_pages. rewrite Hg. reflexivity.
    + eapply IH; eassumption.
Qed.

Lemma load_loop_first_failure (before after : list string) (f : string)
    (e : exn) :
  (forall g, In g before ->
     exists pages, PyPDFLoader_load (path_str documents_dir g) = Ok pages) ->
  PyPDFLoader_load (path_str documents_dir f) = Raise e ->
  forall all_text document_names,
    load_loop PyPDFLoader_load documents_dir (before ++ f :: after)
      all_text document_names
    = Raise e.
Proof.
  intros Hbefore Hf. induction before as [|g before IH];
    intros all_text names; cbn [app load_loop].
  - rewrite Hf. reflexivity.
  - destruct (Hbefore g (or_introl eq_refl)) as [pages ->]. cbn [bind].
    apply IH. intros h Hh. apply Hbefore. right. exact Hh.
Qed.

(** X15: One PDF that does not load aborts the whole load: [load_documents]
    raises the exception of the first file, in the order of the names, whose
    loading raises, and returns no partial context. *)
Theorem load_documents_first_failure (before after : list string)
    (f : string) (e : exn) :
  sorted (glob_pdf listdir documents_dir) = (before ++ f :: after)%list ->
  (forall g, In g before ->
     exists pages, PyPDFLoader_load (path_str documents_dir g) = Ok pages) ->
  PyPDFLoader_load (path_str documents_dir f) = Raise e ->
  load_documents listdir PyPDFLoader_load encoding_for_model documents_dir
  = Raise e.
Proof.
  intros Hs Hbefore Hf. unfold load_documents. rewrite Hs.
  rewrite (load_loop_first_failure before after f e Hbefore Hf). reflexivity.
Qed.

(** X16: A tokenizer that fails loses the documents: when every PDF loads and
    [encoding_for_model], or the encoding of the context, raises,
    [load_documents] raises that exception. *)
Theorem load_documents_tokenizer_failure (e : exn) :
  (forall g, In g (glob_pdf listdir documents_dir) ->
     exists pages, PyPDFLoader_load (path_str documents_dir g) = Ok pages) ->
  encoding_for_model "gpt-4" = Raise e
  \/ (exists encode,
        encoding_for_model "gpt-4" = Ok encode
        /\ encode (context_of (loaded_pages PyPDFLoader_load documents_dir)
                     (sorted (glob_pdf listdir documents_dir)))
           = Raise e) ->
  load_documents listdir PyPDFLoader_load encoding_for_model documents_dir
  = Raise e.
Proof.
  intros Hload Htok. unfold load_documents.
  rewrite (load_loop_loaded PyPDFLoader_load
             (loaded_pages PyPDFLoader_load documents_dir)).
  - cbn [bind fst snd append].
    destruct Htok as [-> | [encode [-> Henc]]]; [reflexivity|].
    cbn [bind]. rewrite Henc. reflexivity.
  - intros g Hg.
    assert (Hin : In g (glob_pdf listdir documents_dir)).
    { eapply Permutation_in; [symmetry; apply StringSort.Permuted_sort|].
      exact Hg. }
    destruct (Hload g Hin) as [pages Hp].
    unfold loaded_pages. rewrite Hp. reflexivity.
Qed.

(** X17: The token count [load_documents] returns is what [count_tokens] gives for
    the returned context with the model "gpt-4". *)
Theorem load_documents_count_is_count_tokens (context : string) (n : Z)
    (names : list string) :
  load_documents listdir PyPDFLoader_load encoding_for_model documents_dir
  = Ok (context, n, names) ->
  count_tokens encoding_for_model context "gpt-4" = Ok n.
Proof.
  unfold load_documents, count_tokens. intros H.
  destruct (load_loop PyPDFLoader_load documents_dir
              (sorted (glob_pdf listdir documents_dir)) "" [])
    as [[text ns]|] eqn:Hl; [|discriminate].
  cbn [bind fst snd] in H.
  destruct (encoding_for_model "gpt-4") as [encode|]; [|discriminate].
  cbn [bind] in H |- *.
  destruct (encode text) as [tokens|] eqn:Ht; [|discriminate].
  cbn [bind] in H. injection H as <- <- <-. rewrite Ht. reflexivity.
Qed.

(** X18: The context announces every document: each returned name is a [*.pdf]
    entry of the directory, its header occurs in the context, and the context
    is empty exactly when no name is returned, even if no PDF has a page. *)
Theorem load_documents_announces_documents (context : string) (n : Z)
    (names : list string) :
  load_documents listdir PyPDFLoader_load encoding_for_model documents_dir
  = Ok (context, n, names) ->
  (forall f, In f names ->
     In f (listdir documents_dir)
     /\ (exists stem, f = stem ++ ".pdf")
     /\ contains (document_header f) context = true)
  /\ (context = "" <-> names = []).
Proof.
  unfold load_documents. intros H.
  destruct (load_loop PyPDFLoader_load documents_dir
              (sorted (glob_pdf listdir documents_dir)) "" [])
    as [[text ns]|] eqn:Hl; [|discriminate].
  pose proof (load_loop_inv _ _ _ _ Hl) as Hall.
  rewrite (load_loop_loaded PyPDFLoader_load
             (loaded_pages PyPDFLoader_load documents_dir) documents_dir
             _ Hall) in Hl.
  injection Hl as <- <-. cbn [bind fst snd append app] in H.
  destruct (encoding_for_model "gpt-4") as [encode|]; [|discriminate].
  cbn [bind] in H.
  destruct (encode _) as [tokens|]; [|discriminate].
  cbn [bind] in H. injection H as <- _ <-.
  set (pages_of := loaded_pages PyPDFLoader_load documents_dir).
  split.
  - intros f Hf. repeat split.
    + assert (Hin : In f (glob_pdf listdir documents_dir)).
      { eapply Permutation_in; [symmetry; apply StringSort.Permuted_sort|].
        exact Hf. }
      apply filter_In in Hin. tauto.
    + assert (Hin : In f (glob_pdf listdir documents_dir)).
      { eapply Permutation_in; [symmetry; apply StringSort.Permuted_sort|].
        exact Hf. }
      apply filter_In in Hin. apply ends_with_split. tauto.
    + destruct (in_split _ _ Hf) as [l1 [l2 ->]].
      rewrite context_of_app. apply contains_after.
      cbn [context_of fold_right]. unfold document_block.
      rewrite !string_append_assoc.
      apply (contains_after _ nl), (contains_after _ nl), contains_prefixed.
  - split.
    + destruct (sorted (glob_pdf listdir documents_dir)) as [|f rest];
        [reflexivity|].
      cbn [context_of fold_right]. unfold document_block, nl.
      cbn [append]. discriminate.
    + intros ->. reflexivity.
Qed.

End LoaderFacts.

(** X19: The load does not depend on the order in which the file system lists the
    directory: two listings with the same entries give the same outcome. *)
Theorem load_documents_listing_order
    (listdir listdir' : string -> list string)
    (PyPDFLoader_load : string -> outcome (list string))
    (encoding_for_model : string -> outcome (string -> outcome (list nat)))
    (documents_dir : string) :
  Permutation (listdir documents_dir) (listdir' documents_dir) ->
  load_documents listdir PyPDFLoader_load encoding_for_model documents_dir
  = load_documents listdir' PyPDFLoader_load encoding_for_model documents_dir.
Proof.
  intros Hp. unfold load_documents.
  rewrite (sorted_permutation (glob_pdf listdir documents_dir)
             (glob_pdf listdir' documents_dir)).
  - reflexivity.
  - apply Permutation_filter_both, Hp.
Qed.

(* ================================================================== *)
(** * Further facts: sample runs *)
(* ================================================================== *)

Lemma query_button_outcomes_witness :
  (exists results,
     query_button keyed_env sdk_ChatOpenAI sdk_ChatAnthropic openai_only (fun _ => ticking)
       true true false false "context" "question"
     = Ok (Stored results "question")
     /\ List.length results = 2%nat
     /\ map QueryResult.model results = ["GPT-5"; "Claude Sonnet 4.5"]
     /\ Forall2
          (fun km r =>
             query_model keyed_env sdk_ChatOpenAI sdk_ChatAnthropic openai_only ticking (snd km) "context"
               "question" = Ok r)
          [(0%nat, "gpt-5"); (1%nat, "claude-sonnet-4-5-20250929")] results)
  /\ query_button openai_env sdk_ChatOpenAI sdk_ChatAnthropic openai_only
       (fun _ => ticking) true true false false "context" "question"
     = Raise (mk_exn ProviderError "The api_key client option must be set").
Proof.
  split.
  - refine (proj1 (proj2 (proj2 (query_button_outcomes keyed_env sdk_ChatOpenAI sdk_ChatAnthropic openai_only
              (fun _ => ticking) true true false false "context" "question")))
              _ _ _ _).
    + discriminate.
    + discriminate.
    + intros m [<- | [<- | []]]; eexists; reflexivity.
    + intros c e. unfold openai_only.
      destruct c as [[model temperature api_key [url|]] | kwargs]; intros H;
        try discriminate H; injection H as <-; reflexivity.
  - refine (proj2 (proj2 (proj2 (query_button_outcomes openai_env
              sdk_ChatOpenAI sdk_ChatAnthropic openai_only
              (fun _ => ticking) true true false false "context" "question")))
              _ ["gpt-5"] "claude-sonnet-4-5-20250929" [] _ _ _ _ _).
    + discriminate.
    + reflexivity.
    + intros g [<- | []]. eexists. reflexivity.
    + reflexivity.
    + intros c e. unfold openai_only.
      destruct c as [[model temperature api_key [url|]] | kwargs]; intros H;
        try discriminate H; injection H as <-; reflexivity.
Defined.

Lemma failed_query_is_most_cost_effective_witness :
  exists fastest,
    key_findings [flat_result; claude_failure]
    = Ok (Some (claude_failure, fastest)).
Proof.
  refine (failed_query_is_most_cost_effective [flat_result] []
            claude_failure _ _ _ _).
  - reflexivity.
  - constructor; [vm_compute; reflexivity | constructor].
  - constructor.
  - simpl. lia.
Defined.

Lemma key_findings_fastest_witness :
  exists cheapest fastest,
    key_findings [flat_result; claude_failure]
    = Ok (Some (cheapest, fastest))
    /\ In cheapest [flat_result; claude_failure]
    /\ In fastest [flat_result; claude_failure]
    /\ forall r, In r [flat_result; claude_failure] ->
         SFltb (QueryResult.time r) (QueryResult.time fastest) = false.
Proof.
  refine (proj2 (key_findings_fastest [flat_result; claude_failure]) _ _).
  - simpl. lia.
  - repeat constructor.
Defined.

Lemma load_documents_first_failure_witness :
  load_documents sample_listdir b_is_corrupt sample_encoding "documents"
  = Raise (mk_exn ValueError "EOF marker not found").
Proof.
  refine (load_documents_first_failure sample_listdir b_is_corrupt
            sample_encoding "documents" ["a.pdf"] [] "b.pdf"
            (mk_exn ValueError "EOF marker not found") _ _ _).
  - reflexivity.
  - intros g [<- | []]. eexists. reflexivity.
  - reflexivity.
Defined.

Lemma load_documents_tokenizer_failure_witness :
  load_documents sample_listdir sample_loader refusing_encoding "documents"
  = Raise (mk_exn KeyError "'gpt-4'").
Proof.
  refine (load_documents_tokenizer_failure sample_listdir sample_loader
            refusing_encoding "documents" (mk_exn KeyError "'gpt-4'") _ _).
  - intros g _. eexists. reflexivity.
  - left. reflexivity.
Defined.

Lemma load_documents_count_is_count_tokens_witness :
  count_tokens sample_encoding sample_context "gpt-4" = Ok 100%Z.
Proof.
  refine (load_documents_count_is_count_tokens sample_listdir sample_loader
            sample_encoding "documents" sample_context 100 ["a.pdf"; "b.pdf"]
            _).
  reflexivity.
Defined.

Lemma load_documents_announces_documents_witness :
  (forall f, In f ["a.pdf"; "b.pdf"] ->
     In f (sample_listdir "documents")
     /\ (exists stem, f = stem ++ ".pdf")
     /\ contains (document_header f) sample_context = true)
  /\ (sample_context = "" <-> ["a.pdf"; "b.pdf"] = []).
Proof.
  refine (load_documents_announces_documents sample_listdir sample_loader
            sample_encoding "documents" sample_context 100 ["a.pdf"; "b.pdf"]
            _).
  reflexivity.
Defined.

Lemma load_documents_listing_order_witness :
  load_documents sample_listdir sample_loader sample_encoding "documents"
  = load_documents other_listdir sample_loader sample_encoding "documents".
Proof.
  refine (load_documents_listing_order sample_listdir other_listdir
            sample_loader sample_encoding "documents" _).
  apply Permutation_sym.
  apply (Permutation_cons_app ["b.pdf"; "notes.txt"] [] "a.pdf").
  apply Permutation_refl.
Defined.

Lemma key_findings_after_click_witness :
  exists cheapest fastest,
    key_findings [flat_result; claude_failure]
    = Ok (Some (cheapest, fastest))
    /\ In cheapest [flat_result; claude_failure]
    /\ In fastest [flat_result; claude_failure].
Proof.
  refine (key_findings_after_click keyed_env sdk_ChatOpenAI sdk_ChatAnthropic openai_only (fun _ => ticking)
            "context" "question" true true false false
            [flat_result; claude_failure] "question" _ _).
  - vm_compute. reflexivity.
  - simpl. lia.
Defined.
